(** * fixposition_driver: the TF converter and the ROS 2 driver node

    A shallow embedding of
    - [fixposition_driver_lib/src/tf.cpp]   ([TfConverter::ConvertTokens]) and
    - [fixposition_driver_ros2/src/fixposition_driver_node.cpp]
      ([FixpositionDriverNode::Run], the TF observer registered in
      [RegisterObservers], [BestGnssPosToPublishNavSatFix]).

    C++ code that mutates members, writes to [std::cout], calls observers and
    may throw is written in a state-and-exception monad in which a thrown
    exception keeps every mutation made before the throw, as in C++. *)

From Stdlib Require Import String Ascii List Bool Arith ZArith QArith Qround Lia.
From Stdlib Require Import DecimalString.
Import ListNotations.

Local Close Scope Q_scope.
Local Open Scope nat_scope.
Local Open Scope string_scope.
Local Open Scope list_scope.

Set Implicit Arguments.

(** ** Exceptions and the effect monad *)

Module Cpp.

(** The exceptions the modelled code can meet: [std::vector::at] throws
    [std::out_of_range]; any other exception (of a parsing helper or of an
    observer) is carried by its [what()] text. *)
Inductive exception : Type :=
| std_out_of_range
| std_exception (what : string).

(** Outcome of a call: normal completion with a value, or an exception in
    flight. *)
Inductive result (A : Type) : Type :=
| Normal (a : A)
| Throw (e : exception).
Arguments Normal {A} a.
Arguments Throw {A} e.

(** A computation over a mutable state [S]: the final state is returned on
    both outcomes, since unwinding does not undo assignments. *)
Definition M (S A : Type) : Type := S -> result A * S.

Definition ret {S A} (a : A) : M S A := fun s => (Normal a, s).

Definition bind {S A B} (m : M S A) (k : A -> M S B) : M S B :=
  fun s => match m s with
           | (Normal a, s') => k a s'
           | (Throw e, s') => (Throw e, s')
           end.

Definition throw {S A} (e : exception) : M S A := fun s => (Throw e, s).

Definition gets {S A} (f : S -> A) : M S A := fun s => (Normal (f s), s).

Definition modify {S} (f : S -> S) : M S unit := fun s => (Normal tt, f s).

(** A helper that returns a value or throws, run inside a computation. *)
Definition lift {S A} (r : result A) : M S A := fun s => (r, s).

(** [v.at(i)] of a [std::vector]. *)
Definition at_ {S A} (v : list A) (i : nat) : M S A :=
  match nth_error v i with
  | Some a => ret a
  | None => throw std_out_of_range
  end.

(** Decimal text of a [size_t], as [operator<<] prints it. *)
Definition size_to_string (n : nat) : string :=
  NilEmpty.string_of_uint (Nat.to_uint n).

(** The one-character string ["\n"]. *)
Definition newline : string := String (ascii_of_nat 10) EmptyString.

End Cpp.

Import Cpp.

Declare Scope cpp_scope.
Delimit Scope cpp_scope with cpp.
Notation "x <- m ;; k" := (bind m (fun x => k))
  (at level 61, m at next level, right associativity) : cpp_scope.
Notation "m ;; k" := (bind m (fun _ => k))
  (at level 61, right associativity) : cpp_scope.

(** ** tf.cpp *)

Module Tf.

(** msg field indices (tf.cpp, lines 22-32) *)
Definition msg_type_idx : nat := 1.
Definition msg_version_idx : nat := 2.
Definition from_frame_idx : nat := 3.
Definition to_frame_idx : nat := 4.
Definition translation_x_idx : nat := 5.
Definition translation_y_idx : nat := 6.
Definition translation_z_idx : nat := 7.
Definition orientation_w_idx : nat := 8.
Definition orientation_x_idx : nat := 9.
Definition orientation_y_idx : nat := 10.
Definition orientation_z_idx : nat := 11.

Section Converter.

(** The values of C++ [double].  No arithmetic is done on them by the
    converter, so the type is left open. *)
Variable double : Type.

(** Text-to-double conversion used by the vector helpers: a value, or
    an exception for text that is not a number. *)
Variable StringToDouble : string -> result double.

(** The world the observers act on (for the node: the ROS publishers). *)
Variable World : Type.

(** [Eigen::Vector3d] and [Eigen::Quaterniond], by their coefficients. *)
Record Vector3d : Type := mkVector3d { x : double; y : double; z : double }.
Record Quaterniond : Type :=
  mkQuaterniond { qw : double; qx : double; qy : double; qz : double }.

(** [TfData]: the members that tf.cpp assigns and the node reads. *)
Record TfData : Type := mkTfData {
  frame_id : string;
  child_frame_id : string;
  translation : Vector3d;
  rotation : Quaterniond
}.

(** The default-constructed [TfData()]. *)
Variable TfData_ctor : TfData.

(** Modelled from the spec: [Vector3ToEigen] is defined in a header of the
    library that is not among the sources; the spec has every output
    numeric field equal to the parsed value of its source token, the
    translation components x, y, z in that order. *)
Definition Vector3ToEigen (sx sy sz : string) : result Vector3d :=
  match StringToDouble sx with
  | Throw e => Throw e
  | Normal vx =>
      match StringToDouble sy with
      | Throw e => Throw e
      | Normal vy =>
          match StringToDouble sz with
          | Throw e => Throw e
          | Normal vz => Normal (mkVector3d vx vy vz)
          end
      end
  end.

(** Modelled from the spec: [Vector4ToEigen], from the same missing
    header; the orientation components are w, x, y, z (scalar first). *)
Definition Vector4ToEigen (sw sx sy sz : string) : result Quaterniond :=
  match StringToDouble sw with
  | Throw e => Throw e
  | Normal vw =>
      match StringToDouble sx with
      | Throw e => Throw e
      | Normal vx =>
          match StringToDouble sy with
          | Throw e => Throw e
          | Normal vy =>
              match StringToDouble sz with
              | Throw e => Throw e
              | Normal vz => Normal (mkQuaterniond vw vx vy vz)
              end
          end
      end
  end.

(** An observer: a callable taking [const TfData&]; it may change the
    world and may throw ([Some e]). *)
Definition TfObserver : Type := TfData -> World -> option exception * World.

(** The members of [TfConverter] used by [ConvertTokens]. *)
Record TfConverter : Type := mkTfConverter {
  msg_ : TfData;
  obs_ : list TfObserver
}.

(** What a call of [ConvertTokens] can touch: the converter itself,
    the characters written to [std::cout], and the observers' world.
    [calls] is the history of observer invocations (position in [obs_]
    and the record passed), kept to state the dispatch properties. *)
Record State : Type := mkState {
  self : TfConverter;
  cout : string;
  world : World;
  calls : list (nat * TfData)
}.

Definition Op (A : Type) : Type := M State A.

Definition set_msg (f : TfData -> TfData) : Op unit :=
  modify (fun st =>
    mkState (mkTfConverter (f (msg_ (self st))) (obs_ (self st)))
            (cout st) (world st) (calls st)).

Definition set_frame_id (s : string) (m : TfData) : TfData :=
  mkTfData s (child_frame_id m) (translation m) (rotation m).
Definition set_child_frame_id (s : string) (m : TfData) : TfData :=
  mkTfData (frame_id m) s (translation m) (rotation m).
Definition set_translation (v : Vector3d) (m : TfData) : TfData :=
  mkTfData (frame_id m) (child_frame_id m) v (rotation m).
Definition set_rotation (q : Quaterniond) (m : TfData) : TfData :=
  mkTfData (frame_id m) (child_frame_id m) (translation m) q.

(** [std::cout << s] *)
Definition cout_put (s : string) : Op unit :=
  modify (fun st =>
    mkState (self st) (cout st ++ s) (world st) (calls st)).

(** [ob(msg_)] for the observer at position [i]: the argument is the
    member [msg_] as it is at the time of the call. *)
Definition call_observer (i : nat) (ob : TfObserver) : Op unit :=
  fun st =>
    let m := msg_ (self st) in
    let (r, w) := ob m (world st) in
    let st' := mkState (self st) (cout st) w (calls st ++ [(i, m)]) in
    match r with
    | None => (Normal tt, st')
    | Some e => (Throw e, st')
    end.

(** [for (auto& ob : obs_) { ob(msg_); }], from position [i] on. *)
Fixpoint process_observers (i : nat) (obs : list TfObserver) : Op unit :=
  match obs with
  | [] => ret tt
  | ob :: rest =>
      (call_observer i ob ;; process_observers (S i) rest)%cpp
  end.

(** [TfConverter::ConvertTokens] (tf.cpp, lines 34-53). *)
Definition ConvertTokens (tokens : list string) : Op unit :=
  (if negb (length tokens =? 12)%nat then
     cout_put "Error in parsing TF string with " ;;
     cout_put (size_to_string (length tokens)) ;;
     cout_put (" fields! TFs will be empty." ++ newline) ;;
     set_msg (fun _ => TfData_ctor) ;;
     ret tt
   else
     from <- at_ tokens from_frame_idx ;;
     set_msg (set_frame_id ("FP_" ++ from)) ;;
     to <- at_ tokens to_frame_idx ;;
     set_msg (set_child_frame_id ("FP_" ++ to)) ;;
     tx <- at_ tokens translation_x_idx ;;
     ty <- at_ tokens translation_y_idx ;;
     tz <- at_ tokens translation_z_idx ;;
     t <- lift (Vector3ToEigen tx ty tz) ;;
     set_msg (set_translation t) ;;
     ow <- at_ tokens orientation_w_idx ;;
     ox <- at_ tokens orientation_x_idx ;;
     oy <- at_ tokens orientation_y_idx ;;
     oz <- at_ tokens orientation_z_idx ;;
     q <- lift (Vector4ToEigen ow ox oy oz) ;;
     set_msg (set_rotation q) ;;
     obs <- gets (fun st => obs_ (self st)) ;;
     process_observers 0 obs)%cpp.

(** The loop over [obs_] read as a function of the record [m] passed and
    the starting world: the exception that stopped it (if any), the final
    world, and how many observers were invoked. *)
Fixpoint run_observers (m : TfData) (obs : list TfObserver) (w : World)
  : option exception * World * nat :=
  match obs with
  | [] => (None, w, 0)
  | ob :: rest =>
      match ob m w with
      | (Some e, w') => (Some e, w', 1)
      | (None, w') =>
          let '(r, w'', k) := run_observers m rest w' in (r, w'', S k)
      end
  end.

(** The world after the observers of [obs] ran to completion on [m]. *)
Definition world_after (m : TfData) (obs : list TfObserver) (w : World)
  : World :=
  fold_left (fun w' ob => snd (ob m w')) obs w.

(** Token [i] of a frame. *)
Definition token (tokens : list string) (i : nat) : string :=
  nth i tokens "".

(** The outcome of a loop that was stopped by [r]. *)
Definition outcome (r : option exception) : result unit :=
  match r with
  | None => Normal tt
  | Some e => Throw e
  end.

(** The state with the record [m] stored in the converter. *)
Definition with_msg (m : TfData) (st : State) : State :=
  mkState (mkTfConverter m (obs_ (self st))) (cout st) (world st) (calls st).

(** The invocations of positions [i], [i+1], ..., [i+k-1] on [m]. *)
Definition invocations (i k : nat) (m : TfData) : list (nat * TfData) :=
  map (fun j => (j, m)) (seq i k).

End Converter.

End Tf.

(** ** fixposition_driver_node.cpp *)

Module Node.

(** The publishers of [FixpositionDriverNode], by member name. *)
Inductive Publisher : Type :=
| rawimu_pub_ | corrimu_pub_ | navsatfix_pub_
| navsatfix_gnss1_pub_ | navsatfix_gnss2_pub_
| odometry_pub_ | poiimu_pub_ | vrtk_pub_ | odometry_enu0_pub_
| orientation_pub_ | eul_pub_ | eul_imu_pub_.

(** The topic each publisher is created on (constructor, lines 41-54). *)
Definition topic (p : Publisher) : string :=
  match p with
  | rawimu_pub_ => "/fixposition/rawimu"
  | corrimu_pub_ => "/fixposition/corrimu"
  | navsatfix_pub_ => "/fixposition/navsatfix"
  | navsatfix_gnss1_pub_ => "/fixposition/gnss1"
  | navsatfix_gnss2_pub_ => "/fixposition/gnss2"
  | odometry_pub_ => "/fixposition/odometry"
  | poiimu_pub_ => "/fixposition/poiimu"
  | vrtk_pub_ => "/fixposition/vrtk"
  | odometry_enu0_pub_ => "/fixposition/odometry_enu"
  | orientation_pub_ => "/autoware_orientation"
  | eul_pub_ => "/fixposition/ypr"
  | eul_imu_pub_ => "/fixposition/imu_ypr"
  end.

(** *** The connection-retry delay of [Run]

    [params_.fp_output.reconnect_delay] is a [double] (it is printed with
    [%.1f]); a finite double is given here by its exact rational value.
    The values that are not finite are added in [Fp]. *)

(** [(uint64_t)d]: the fractional part is discarded (truncation toward
    zero); the conversion is undefined when the truncated value does not
    fit, which is [None] here. *)
Definition double_to_uint64 (d : Q) : option Z :=
  let t := Z.quot (Qnum d) (Z.pos (Qden d)) in
  if ((0 <=? t) && (t <? 2 ^ 64))%Z then Some t else None.

(** Multiplication of [uint64_t] values wraps around. *)
Definition mul_uint64 (a b : Z) : Z := ((a * b) mod 2 ^ 64)%Z.

(** [std::chrono::nanoseconds] counts in a signed 64-bit integer; the
    constructor casts its argument to it. *)
Definition uint64_to_int64 (u : Z) : Z :=
  (if u <? 2 ^ 63 then u else u - 2 ^ 64)%Z.

(** [std::chrono::nanoseconds((uint64_t)reconnect_delay * 1000 * 1000 * 1000)]
    (lines 67-68): the cast binds tighter than the products. *)
Definition reconnect_delay_ns (reconnect_delay : Q) : option Z :=
  match double_to_uint64 reconnect_delay with
  | Some s =>
      Some (uint64_to_int64
              (mul_uint64 (mul_uint64 (mul_uint64 s 1000) 1000) 1000))
  | None => None
  end.

(** The configured delay in nanoseconds, as a rational. *)
Definition seconds_to_ns (seconds : Q) : Q := (seconds * 1000000000)%Q.

(** *** The run loop, for calls that return

    The loop as it goes when every function it calls returns; the loop
    whose calls may throw is [Loop.Run_loop], which agrees with this one
    on calls that return. *)

Section RunLoop.

(** The driver and everything around it (link, ROS context, clock). *)
Variable Driver : Type.

(** [rclcpp::ok()], [RunOnce()], [rclcpp::spin_some(node_)],
    [rclcpp::sleep_for(ns)], [Connect()] (its result is not used by [Run])
    and [rate.sleep()]: none of them is defined in the sources at hand. *)
Variable rclcpp_ok : Driver -> bool.
Variable RunOnce : Driver -> bool * Driver.
Variable spin_some : Driver -> Driver.
Variable sleep_for : Z -> Driver -> Driver.
Variable Connect : Driver -> Driver.
Variable rate_sleep : Driver -> Driver.

(** What one turn of the loop does, in order. *)
Inductive action : Type :=
| DoRunOnce (connection_ok : bool)
| DoSpinSome
| DoPrintReconnecting (seconds : Q)
| DoSleepFor (ns : Z)
| DoConnect
| DoRateSleep.

(** The body of the [while] loop (lines 71-83). *)
Definition Run_body (seconds : Q) (delay : Z) (d : Driver)
  : Driver * list action :=
  let (connection_ok, d1) := RunOnce d in
  let d2 := spin_some d1 in
  if negb connection_ok then
    let d3 := sleep_for delay d2 in
    let d4 := Connect d3 in
    (d4, [DoRunOnce connection_ok; DoSpinSome;
          DoPrintReconnecting seconds; DoSleepFor delay; DoConnect])
  else
    (rate_sleep d2, [DoRunOnce connection_ok; DoSpinSome; DoRateSleep]).

(** How a bounded run of the loop ends: the condition was found false
    ([Exited]), or the bound was reached with the loop still going. *)
Inductive run : Type :=
| Exited (d : Driver) (trace : list action)
| Running (d : Driver) (trace : list action).

(** [while (rclcpp::ok()) { ... }], at most [fuel] turns. *)
Fixpoint Run_loop (fuel : nat) (seconds : Q) (delay : Z) (d : Driver)
         (trace : list action) : run :=
  match fuel with
  | O => Running d trace
  | S fuel' =>
      if rclcpp_ok d then
        let (d', acts) := Run_body seconds delay d in
        Run_loop fuel' seconds delay d' (trace ++ acts)
      else Exited d trace
  end.

(** [FixpositionDriverNode::Run] (lines 65-85); [None] when the cast of
    the delay is undefined. *)
Definition Run (fuel : nat) (reconnect_delay : Q) (d : Driver)
  : option run :=
  match reconnect_delay_ns reconnect_delay with
  | Some delay => Some (Run_loop fuel reconnect_delay delay d [])
  | None => None
  end.

(** The driver after [k] turns. *)
Fixpoint after_turns (k : nat) (seconds : Q) (delay : Z) (d : Driver)
  : Driver :=
  match k with
  | O => d
  | S k' => after_turns k' seconds delay (fst (Run_body seconds delay d))
  end.

Definition is_RunOnce (a : action) : bool :=
  match a with DoRunOnce _ => true | _ => false end.

End RunLoop.

(** *** Observers that publish *)

Section Publishing.

Variable double : Type.

(** The value of the literal [0.0]. *)
Variable zero : double.

(** [builtin_interfaces::msg::Time] and [geometry_msgs::msg::Transform]. *)
Variable Time : Type.
Variable Transform : Type.

(** [std_msgs::msg::Header] *)
Record Header : Type := mkHeader { stamp : Time; frame_id : string }.

(** [geometry_msgs::msg::Vector3] and [Vector3Stamped] *)
Record Vector3 : Type := mkVector3 { x : double; y : double; z : double }.
Record Vector3Stamped : Type :=
  mkVector3Stamped { header : Header; vector : Vector3 }.

(** [geometry_msgs::msg::TransformStamped] *)
Record TransformStamped : Type := mkTransformStamped {
  tf_header : Header;
  child_frame_id : string;
  transform : Transform
}.

(** [NavSatFixData]: [frame_id] is the member the node reads; [nav_fields]
    stands for the others. *)
Variable NavSatFixFields : Type.
Record NavSatFixData : Type :=
  mkNavSatFixData { nav_frame_id : string; nav_fields : NavSatFixFields }.

(** [sensor_msgs::msg::NavSatFix] *)
Variable NavSatFix : Type.

(** Conversions of the library and of [data_to_ros2], and
    [gnss_tf::QuatToEul]: declared outside the sources at hand. *)
Variable Oem7MessageHeaderMem : Type.
Variable BESTGNSSPOSMem : Type.
Variable NovToData : Oem7MessageHeaderMem -> BESTGNSSPOSMem -> NavSatFixData.
Variable NavSatFixDataToMsg : NavSatFixData -> NavSatFix.
Variable TfDataToMsg : Tf.TfData double -> TransformStamped.
Variable QuatToEul : Tf.Quaterniond double -> Tf.Vector3d double.

(** A message handed to a publisher. *)
Inductive Message : Type :=
| NavSatFixMsg (m : NavSatFix)
| Vector3StampedMsg (m : Vector3Stamped).

(** The ROS side as the observers see it: the number of subscriptions of
    each publisher, and what was published so far, oldest first. *)
Record Ros : Type := mkRos {
  subscription_count : Publisher -> nat;
  published : list (Publisher * Message)
}.

(** [pub->get_subscription_count()] *)
Definition get_subscription_count (p : Publisher) : M Ros nat :=
  gets (fun ros => subscription_count ros p).

(** [pub->publish(msg)] *)
Definition publish (p : Publisher) (m : Message) : M Ros unit :=
  modify (fun ros =>
    mkRos (subscription_count ros) (published ros ++ [(p, m)])).

(** [FixpositionDriverNode::BestGnssPosToPublishNavSatFix]
    (lines 207-227). *)
Definition BestGnssPosToPublishNavSatFix
           (header : Oem7MessageHeaderMem) (payload : BESTGNSSPOSMem)
  : M Ros unit :=
  (let nav_sat_fix := NovToData header payload in
   if (nav_frame_id nav_sat_fix =? "GNSS1")
      || (nav_frame_id nav_sat_fix =? "GNSS") then
     n <- get_subscription_count navsatfix_gnss1_pub_ ;;
     if (0 <? n)%nat then
       publish navsatfix_gnss1_pub_
               (NavSatFixMsg (NavSatFixDataToMsg nav_sat_fix))
     else ret tt
   else if nav_frame_id nav_sat_fix =? "GNSS2" then
     n <- get_subscription_count navsatfix_gnss2_pub_ ;;
     if (0 <? n)%nat then
       publish navsatfix_gnss2_pub_
               (NavSatFixMsg (NavSatFixDataToMsg nav_sat_fix))
     else ret tt
   else ret tt)%cpp.

(** [imu_ypr_eigen.x() = v] *)
Definition set_x (v : double) (e : Tf.Vector3d double) : Tf.Vector3d double :=
  Tf.mkVector3d v (Tf.y e) (Tf.z e).

(** The body of the TF observer lambda of [RegisterObservers]
    (lines 174-195). *)
Definition TfObserverBody (data : Tf.TfData double) : M Ros unit :=
  (let tf := TfDataToMsg data in
   if (child_frame_id tf =? "FP_IMUH")
      && (frame_id (tf_header tf) =? "FP_POI") then
     let imu_ypr_eigen := QuatToEul (Tf.rotation data) in
     let imu_ypr_eigen := set_x zero imu_ypr_eigen in
     let imu_ypr :=
       mkVector3Stamped
         (mkHeader (stamp (tf_header tf)) "FP_POI")
         (mkVector3 (Tf.x imu_ypr_eigen) (Tf.y imu_ypr_eigen)
                    (Tf.z imu_ypr_eigen)) in
     publish eul_imu_pub_ (Vector3StampedMsg imu_ypr)
   else ret tt)%cpp.

(** The lambda as a registered observer of the TF converter. *)
Definition TfObserverLambda : Tf.TfObserver double Ros :=
  fun data ros =>
    match TfObserverBody data ros with
    | (Normal _, ros') => (None, ros')
    | (Throw e, ros') => (Some e, ros')
    end.

End Publishing.

End Node.

(** ** A concrete instance for the scenarios

    Doubles are given by their exact rational value, and the text-to-double
    conversion reads plain decimal literals ([-12.5], [3], [0.25]); any other
    text throws. *)

Module Decimal.

Definition digit_of (c : ascii) : option Z :=
  let n := nat_of_ascii c in
  if ((48 <=? n) && (n <=? 57))%nat then Some (Z.of_nat (n - 48)) else None.

(** Reads digits with at most one point: [acc] is the number read so far
    with the point removed, [scale] the power of ten of the fraction,
    [frac] whether the point was met, [seen] whether a digit was met. *)
Fixpoint read (s : string) (acc : Z) (scale : positive) (frac seen : bool)
  : option Q :=
  match s with
  | EmptyString => if seen then Some (Qred (acc # scale)) else None
  | String c rest =>
      match digit_of c with
      | Some d =>
          read rest (10 * acc + d)%Z
               (if frac then (10 * scale)%positive else scale) frac true
      | None =>
          if (Ascii.eqb c "."%char) && negb frac
          then read rest acc scale true seen
          else None
      end
  end.

Definition StringToDouble (s : string) : result Q :=
  let r :=
    match s with
    | String "-"%char rest => option_map Qopp (read rest 0%Z 1%positive false false)
    | _ => read s 0%Z 1%positive false false
    end in
  match r with
  | Some q => Normal q
  | None => Throw (std_exception "stod")
  end.

(** The [TfData()] of the scenarios: empty frame names, zero translation,
    identity rotation. *)
Definition TfData_ctor : Tf.TfData Q :=
  Tf.mkTfData "" "" (Tf.mkVector3d 0 0 0)%Q (Tf.mkQuaterniond 1 0 0 0)%Q.

(** Observers that write their name into a log; the second kind throws
    after doing so. *)
Definition World : Type := list string.

Definition logging (name : string) : Tf.TfObserver Q World :=
  fun _ w => (None, w ++ [name]).

Definition failing (name : string) : Tf.TfObserver Q World :=
  fun _ w => (Some (std_exception name), w ++ [name]).

Definition ConvertTokens := Tf.ConvertTokens StringToDouble TfData_ctor (World := World).

Definition start (obs : list (Tf.TfObserver Q World)) : Tf.State Q World :=
  Tf.mkState (Tf.mkTfConverter TfData_ctor obs) "" [] [].

(** The transform frame of the spec's scenario. *)
Definition tf_frame : list string :=
  ["$FP"; "TF"; "1"; "POI"; "ECEF"; "1.0"; "2.0"; "3.0"; "1.0"; "0.0"; "0.0"; "0.0"].

(** The same frame with text in the field of the rotation's w. *)
Definition tf_frame_bad : list string :=
  ["$FP"; "TF"; "1"; "POI"; "ECEF"; "1.0"; "2.0"; "3.0"; "abc"; "0.0"; "0.0"; "0.0"].

(** The record the scenario's frame decodes to. *)
Definition tf_record : Tf.TfData Q :=
  Tf.mkTfData "FP_POI" "FP_ECEF" (Tf.mkVector3d 1 2 3)%Q
              (Tf.mkQuaterniond 1 0 0 0)%Q.

End Decimal.

(** ** Concrete instances of the node's surroundings *)

Module Scenario.

(** A driver that counts its turns: [rclcpp::ok()] holds for the first four
    of them, and the connection is lost in every odd turn. *)
Definition Driver : Type := nat.
Definition rclcpp_ok (d : Driver) : bool := (d <? 4)%nat.
Definition RunOnce (d : Driver) : bool * Driver := (Nat.even d, S d).
Definition spin_some (d : Driver) : Driver := d.
Definition sleep_for (ns : Z) (d : Driver) : Driver := d.
Definition Connect (d : Driver) : Driver := d.
Definition rate_sleep (d : Driver) : Driver := d.

(** Messages reduced to what the observers look at: the time stamp is a
    counter, a NavSatFix is named by its frame id, and the BestGnssPos header
    carries the frame id that [NovToData] stores. *)
Definition Time : Type := nat.
Definition Transform : Type := unit.
Definition NavSatFixFields : Type := unit.
Definition NavSatFix : Type := string.
Definition Oem7MessageHeaderMem : Type := string.
Definition BESTGNSSPOSMem : Type := unit.

Definition NovToData (header : Oem7MessageHeaderMem) (payload : BESTGNSSPOSMem)
  : Node.NavSatFixData NavSatFixFields :=
  Node.mkNavSatFixData header tt.

Definition NavSatFixDataToMsg (data : Node.NavSatFixData NavSatFixFields)
  : NavSatFix :=
  Node.nav_frame_id data.

(** A [TfDataToMsg] that copies the two frame names. *)
Definition TfDataToMsg (data : Tf.TfData Q)
  : Node.TransformStamped Time Transform :=
  Node.mkTransformStamped
    (Node.mkHeader 0 (Tf.frame_id data)) (Tf.child_frame_id data) tt.

(** A stand-in for [gnss_tf::QuatToEul] whose first component is not zero
    on the identity rotation. *)
Definition QuatToEul (q : Tf.Quaterniond Q) : Tf.Vector3d Q :=
  Tf.mkVector3d (Tf.qw q) (Tf.qx q) (Tf.qy q).

Definition Ros : Type := Node.Ros Q Time NavSatFix.

(** A ROS side where every publisher has one subscriber. *)
Definition ros0 : Ros := Node.mkRos (fun _ => 1) [].

Definition TfLambda : Tf.TfObserver Q Ros :=
  Node.TfObserverLambda (0 : Q) (NavSatFix := NavSatFix) TfDataToMsg QuatToEul.

(** A decoded record of the IMU frame relative to the point of interest. *)
Definition imuh_record : Tf.TfData Q :=
  Tf.mkTfData "FP_POI" "FP_IMUH" (Tf.mkVector3d 0 0 0)%Q
              (Tf.mkQuaterniond 1 0 0 0)%Q.

End Scenario.

(** ** The remaining observers of [RegisterObservers] *)

Module Observers.

Import Node.

Section Lambdas.

Variable double : Type.

(** The value the members [rmse_rotation_x], [_y], [_z] hold after the
    assignment of the literal [0.0017]. *)
Variable rmse_0_0017 : double.

Variable Time : Type.

(** [times::GpsTime], the stamp of the library's data structs. *)
Variable GpsTime : Type.

(** [geometry_msgs::msg::Quaternion] *)
Variable QuaternionMsg : Type.

(** [nav_msgs::msg::Odometry]: the header and [pose.pose.orientation] are
    the members the node reads; [odom_rest] stands for the others. *)
Variable OdometryRest : Type.
Record Odometry : Type := mkOdometry {
  odom_header : Header Time;
  odom_orientation : QuaternionMsg;
  odom_rest : OdometryRest
}.

(** [autoware_sensing_msgs::msg::GnssInsOrientationStamped], with the
    members of its [orientation] field spelled out. *)
Record GnssInsOrientationStamped : Type := mkGnssInsOrientationStamped {
  gio_header : Header Time;
  gio_orientation : QuaternionMsg;
  rmse_rotation_x : double;
  rmse_rotation_y : double;
  rmse_rotation_z : double
}.

(** [sensor_msgs::msg::Imu], [fixposition_driver_ros2::msg::VRTK] and
    [sensor_msgs::msg::NavSatFix]. *)
Variable Imu : Type.
Variable VRTK : Type.
Variable NavSatFix : Type.

(** The library's [OdometryData] ([stamp] is the member the node reads),
    [VrtkData] ([fusion_status] likewise), [ImuData] and [NavSatFixData]. *)
Variable OdometryFields : Type.
Record OdometryData : Type :=
  mkOdometryData { od_stamp : GpsTime; od_fields : OdometryFields }.
Variable VrtkFields : Type.
Record VrtkData : Type :=
  mkVrtkData { fusion_status : Z; vrtk_fields : VrtkFields }.
Variable ImuData : Type.
Variable NavSatFixFields : Type.
Variable Transform : Type.

(** [OdometryConverter::Msgs] *)
Record Msgs : Type := mkMsgs {
  odometry : OdometryData;
  odometry_enu0 : OdometryData;
  vrtk : VrtkData;
  eul : Tf.Vector3d double;
  imu : ImuData;
  tf_ecef_poi : Tf.TfData double;
  tf_ecef_enu : Tf.TfData double;
  tf_ecef_enu0 : Tf.TfData double
}.

(** The conversions of [data_to_ros2] and of the library's helpers, all
    declared outside the sources at hand. *)
Variable OdometryDataToMsg : OdometryData -> Odometry.
Variable VrtkDataToMsg : VrtkData -> VRTK.
Variable ImuDataToMsg : ImuData -> Imu.
Variable NavSatFixDataToMsg : NavSatFixData NavSatFixFields -> NavSatFix.
Variable TfDataToMsg : Tf.TfData double -> TransformStamped Time Transform.
Variable GpsTimeToMsgTime : GpsTime -> Time.

(** A message handed to one of the node's publishers. *)
Inductive BusMessage : Type :=
| OdometryMsg (m : Odometry)
| GnssInsOrientationMsg (m : GnssInsOrientationStamped)
| VrtkMsg (m : VRTK)
| YprMsg (m : Vector3Stamped double Time)
| ImuMsg (m : Imu)
| FixMsg (m : NavSatFix).

(** The publishers as these observers see them: subscription counts and
    what was published so far, oldest first. *)
Record Bus : Type := mkBus {
  bus_subscription_count : Publisher -> nat;
  bus_published : list (Publisher * BusMessage)
}.

Definition bus_get_subscription_count (p : Publisher) : M Bus nat :=
  gets (fun b => bus_subscription_count b p).

Definition bus_publish (p : Publisher) (m : BusMessage) : M Bus unit :=
  modify (fun b =>
    mkBus (bus_subscription_count b) (bus_published b ++ [(p, m)])).

(** [if (c) { body }] *)
Definition when (c : bool) (body : M Bus unit) : M Bus unit :=
  if c then body else ret tt.

(** The ODOMETRY observer lambda (lines 95-151).  The three transforms of
    the last block are converted and then dropped: the broadcasts are
    commented out in the source. *)
Definition OdometryObserverBody (data : Msgs) : M Bus unit :=
  (n <- bus_get_subscription_count odometry_pub_ ;;
   when (0 <? n)%nat
     (let odometry_msg := OdometryDataToMsg (odometry data) in
      bus_publish odometry_pub_ (OdometryMsg odometry_msg)) ;;
   n <- bus_get_subscription_count odometry_enu0_pub_ ;;
   when (0 <? n)%nat
     (let odometry_enu0_msg := OdometryDataToMsg (odometry_enu0 data) in
      let gnss_ins_orientation :=
        mkGnssInsOrientationStamped
          (odom_header odometry_enu0_msg)
          (odom_orientation odometry_enu0_msg)
          rmse_0_0017 rmse_0_0017 rmse_0_0017 in
      bus_publish odometry_enu0_pub_ (OdometryMsg odometry_enu0_msg) ;;
      bus_publish orientation_pub_ (GnssInsOrientationMsg gnss_ins_orientation)) ;;
   n <- bus_get_subscription_count vrtk_pub_ ;;
   when (0 <? n)%nat
     (bus_publish vrtk_pub_ (VrtkMsg (VrtkDataToMsg (vrtk data)))) ;;
   n <- bus_get_subscription_count eul_pub_ ;;
   when (0 <? n)%nat
     (let ypr :=
        mkVector3Stamped
          (mkHeader (GpsTimeToMsgTime (od_stamp (odometry data))) "FP_POI")
          (mkVector3 (Tf.x (eul data)) (Tf.y (eul data)) (Tf.z (eul data))) in
      bus_publish eul_pub_ (YprMsg ypr)) ;;
   n <- bus_get_subscription_count poiimu_pub_ ;;
   when (0 <? n)%nat
     (bus_publish poiimu_pub_ (ImuMsg (ImuDataToMsg (imu data)))) ;;
   when (0 <? fusion_status (vrtk data))%Z
     (let tf_ecef_poi_msg := TfDataToMsg (tf_ecef_poi data) in
      let tf_ecef_enu_msg := TfDataToMsg (tf_ecef_enu data) in
      let tf_ecef_enu0_msg := TfDataToMsg (tf_ecef_enu0 data) in
      ret tt))%cpp.

(** The LLH observer lambda (lines 153-158). *)
Definition LlhObserverBody (data : NavSatFixData NavSatFixFields) : M Bus unit :=
  bus_publish navsatfix_pub_ (FixMsg (NavSatFixDataToMsg data)).

(** The RAWIMU observer lambda (lines 160-165). *)
Definition RawImuObserverBody (data : ImuData) : M Bus unit :=
  bus_publish rawimu_pub_ (ImuMsg (ImuDataToMsg data)).

(** The CORRIMU observer lambda (lines 167-172). *)
Definition CorrImuObserverBody (data : ImuData) : M Bus unit :=
  bus_publish corrimu_pub_ (ImuMsg (ImuDataToMsg data)).

(** The publishers with a subscriber among [ps], in the order of [ps]. *)
Definition subscribed (b : Bus) (ps : list Publisher) : list Publisher :=
  filter (fun p => (0 <? bus_subscription_count b p)%nat) ps.

(** What a block publishes when its publisher has a subscriber. *)
Definition guarded (b : Bus) (p : Publisher)
           (msgs : list (Publisher * BusMessage)) : list (Publisher * BusMessage) :=
  if (0 <? bus_subscription_count b p)%nat then msgs else [].

(** The publishers the ODOMETRY observer tests for subscribers, in the
    order of its blocks. *)
Definition odometry_gates : list Publisher :=
  [odometry_pub_; odometry_enu0_pub_; vrtk_pub_; eul_pub_; poiimu_pub_].

(** The publishers that the block guarded by [p] publishes on. *)
Definition block_of (p : Publisher) : list Publisher :=
  match p with
  | odometry_enu0_pub_ => [odometry_enu0_pub_; orientation_pub_]
  | _ => [p]
  end.

(** [data] with other transforms in its three TF members. *)
Definition with_tfs (data : Msgs) (poi enu enu0 : Tf.TfData double) : Msgs :=
  mkMsgs (odometry data) (odometry_enu0 data) (vrtk data) (eul data)
         (imu data) poi enu enu0.

End Lambdas.

Arguments OdometryMsg {_ _ _ _ _ _ _} m.
Arguments GnssInsOrientationMsg {_ _ _ _ _ _ _} m.
Arguments VrtkMsg {_ _ _ _ _ _ _} m.
Arguments YprMsg {_ _ _ _ _ _ _} m.
Arguments ImuMsg {_ _ _ _ _ _ _} m.
Arguments FixMsg {_ _ _ _ _ _ _} m.

End Observers.

(** ** [RegisterObservers] *)

Module Registry.

Section Register.

(** The observer types of the converters, and the world and record types
    of the TF converter. *)
Variable double : Type.
Variable World : Type.
Variable OdometryObserver : Type.
Variable LlhObserver : Type.
Variable ImuObserver : Type.
Variable BestGnssPosObserver : Type.

(** The converters behind the [BaseConverter] pointers of [a_converters_],
    by dynamic type.  Of the converters whose class is outside the sources
    at hand only the observer list is kept. *)
Inductive Converter : Type :=
| OdometryConverter (obs : list OdometryObserver)
| LlhConverter (obs : list LlhObserver)
| ImuConverter (obs : list ImuObserver)
| TfConverter (c : Tf.TfConverter double World).

(** [a_converters_]: a map from format names to owning pointers.  A key
    is absent ([None]), holds a null pointer ([Some None]) or holds a
    converter. *)
Definition Converters : Type := string -> option (option Converter).

(** The members of the driver that [RegisterObservers] touches. *)
Record Driver : Type := mkDriver {
  a_converters_ : Converters;
  bestgnsspos_obs_ : list BestGnssPosObserver
}.

(** The closures that [RegisterObservers] creates: the bound member
    function and the five lambdas. *)
Variable bestgnsspos_observer : BestGnssPosObserver.
Variable odometry_lambda : OdometryObserver.
Variable llh_lambda : LlhObserver.
Variable rawimu_lambda : ImuObserver.
Variable corrimu_lambda : ImuObserver.
Variable tf_lambda : Tf.TfObserver double World.

Definition store (m : Converters) (key : string) (v : option Converter)
  : Converters :=
  fun k => if String.eqb k key then Some v else m k.

(** [a_converters_[key]]: the pointer stored under [key]; a missing key is
    inserted with a null pointer. *)
Definition index (key : string) (m : Converters)
  : option Converter * Converters :=
  match m key with
  | Some p => (p, m)
  | None => (None, store m key None)
  end.

(** Modelled from the spec: [AddObserver] is a member of the converters'
    base class, which is not among the sources; the spec has registration
    append to an ordered list, without de-duplication. *)
Definition AddObserver {A : Type} (obs : list A) (ob : A) : list A :=
  obs ++ [ob].

(** [dynamic_cast<T*>(a_converters_[key].get())->AddObserver(ob)] for each
    of the four converter classes: the cast of a null pointer or of a
    converter of another class is null, and the call through it is
    undefined ([None]). *)
Definition add_odometry_observer (key : string) (ob : OdometryObserver)
           (m : Converters) : option Converters :=
  match index key m with
  | (Some (OdometryConverter obs), m') =>
      Some (store m' key (Some (OdometryConverter (AddObserver obs ob))))
  | _ => None
  end.

Definition add_llh_observer (key : string) (ob : LlhObserver)
           (m : Converters) : option Converters :=
  match index key m with
  | (Some (LlhConverter obs), m') =>
      Some (store m' key (Some (LlhConverter (AddObserver obs ob))))
  | _ => None
  end.

Definition add_imu_observer (key : string) (ob : ImuObserver)
           (m : Converters) : option Converters :=
  match index key m with
  | (Some (ImuConverter obs), m') =>
      Some (store m' key (Some (ImuConverter (AddObserver obs ob))))
  | _ => None
  end.

Definition add_tf_observer (key : string) (ob : Tf.TfObserver double World)
           (m : Converters) : option Converters :=
  match index key m with
  | (Some (TfConverter c), m') =>
      Some (store m' key
              (Some (TfConverter
                       (Tf.mkTfConverter (Tf.msg_ c)
                                         (AddObserver (Tf.obs_ c) ob)))))
  | _ => None
  end.

(** The body of the loop over the formats (lines 93-196). *)
Definition register_format (format : string) (m : Converters)
  : option Converters :=
  if format =? "ODOMETRY" then
    add_odometry_observer "ODOMETRY" odometry_lambda m
  else
    let (is_llh, m1) :=
      if format =? "LLH" then
        let (p, m') := index "LLH" m in
        (match p with Some _ => true | None => false end, m')
      else (false, m) in
    if is_llh then add_llh_observer "LLH" llh_lambda m1
    else if format =? "RAWIMU" then
      add_imu_observer "RAWIMU" rawimu_lambda m1
    else if format =? "CORRIMU" then
      add_imu_observer "CORRIMU" corrimu_lambda m1
    else if format =? "TF" then
      add_tf_observer "TF" tf_lambda m1
    else Some m1.

(** [for (const auto& format : params_.fp_output.formats) { ... }] *)
Fixpoint register_formats (formats : list string) (m : Converters)
  : option Converters :=
  match formats with
  | [] => Some m
  | format :: rest =>
      match register_format format m with
      | Some m' => register_formats rest m'
      | None => None
      end
  end.

(** [FixpositionDriverNode::RegisterObservers] (lines 87-198); [None]
    when a call through a null pointer makes the behaviour undefined. *)
Definition RegisterObservers (formats : list string) (d : Driver)
  : option Driver :=
  let obs := bestgnsspos_obs_ d ++ [bestgnsspos_observer] in
  match register_formats formats (a_converters_ d) with
  | Some m => Some (mkDriver m obs)
  | None => None
  end.

(** The observers of the TF converter stored under "TF", if there is one. *)
Definition tf_observers (m : Converters)
  : option (list (Tf.TfObserver double World)) :=
  match m "TF" with
  | Some (Some (TfConverter c)) => Some (Tf.obs_ c)
  | _ => None
  end.

(** The formats whose branch calls through the pointer without a test. *)
Definition unguarded (format : string) : bool :=
  (format =? "ODOMETRY") || (format =? "RAWIMU") || (format =? "CORRIMU")
  || (format =? "TF").

(** A converter of the class that the branch of [format] casts to. *)
Definition class_matches (format : string) (c : Converter) : bool :=
  match c with
  | OdometryConverter _ => format =? "ODOMETRY"
  | LlhConverter _ => format =? "LLH"
  | ImuConverter _ => (format =? "RAWIMU") || (format =? "CORRIMU")
  | TfConverter _ => format =? "TF"
  end.

(** [key] holds a converter of the class its branch expects. *)
Definition holds_its_class (m : Converters) (key : string) : bool :=
  match m key with
  | Some (Some c) => class_matches key c
  | _ => false
  end.

(** The pointer under "LLH" is absent, null, or an LLH converter. *)
Definition llh_ok (m : Converters) : bool :=
  match m "LLH" with
  | Some (Some c) => class_matches "LLH" c
  | _ => true
  end.

(** The formats with a branch in [RegisterObservers]. *)
Definition known_format (format : string) : bool :=
  unguarded format || (format =? "LLH").

End Register.

End Registry.

(** ** What a trace of the run loop contains *)

Module Trace.

Import Node.

Definition count (f : action -> bool) (tr : list action) : nat :=
  length (filter f tr).

End Trace.

(** ** Concrete instances for the registry and the TF pipeline *)

Module Setup.

(** A TF frame of the IMU relative to the point of interest. *)
Definition imuh_frame : list string :=
  ["$FP"; "TF"; "1"; "POI"; "IMUH"; "0.0"; "0.0"; "0.0"; "1.0"; "0.0"; "0.0"; "0.0"].

(** A converter state over the ROS side of [Scenario] whose only observer
    is the TF lambda. *)
Definition tf_state : Tf.State Q Scenario.Ros :=
  Tf.mkState (Tf.mkTfConverter Decimal.TfData_ctor [Scenario.TfLambda])
             "" Scenario.ros0 [].

(** A converter that has decoded the frame of the first scenario. *)
Definition after_tf_frame : Tf.State Q Decimal.World :=
  snd (Decimal.ConvertTokens Decimal.tf_frame (Decimal.start [])).

(** A frame with other frame names and text in the rotation. *)
Definition bad_rotation_frame : list string :=
  ["$FP"; "TF"; "1"; "VRTK"; "CAM"; "4.0"; "5.0"; "6.0"; "0.5"; "x"; "0.0"; "0.0"].

(** A driver whose map holds a TF converter without observers and nothing
    else; the observers of the other converters are left abstract. *)
Definition Converter : Type :=
  Registry.Converter Q Scenario.Ros unit unit unit.

Definition tf_only : Registry.Converters Q Scenario.Ros unit unit unit :=
  fun key =>
    if key =? "TF"
    then Some (Some (Registry.TfConverter unit unit unit
                       (Tf.mkTfConverter Decimal.TfData_ctor [])))
    else None.

Definition driver0 : Registry.Driver Q Scenario.Ros unit unit unit unit :=
  Registry.mkDriver tf_only [].

Definition RegisterObservers :=
  Registry.RegisterObservers (double := Q) (World := Scenario.Ros)
                             tt tt tt tt tt Scenario.TfLambda.

End Setup.

(** ** [Run] with calls that may throw

    [Run] has no handler: an exception thrown by a function it calls leaves
    the loop and [Run].  Here every call is a computation that returns or
    throws, and nothing is recorded by the loop itself; [instrument] wraps
    the calls so that each one logs itself and how it ended. *)

Module Loop.

(** The functions [Run] calls on the driver and its surroundings, none of
    them defined in the sources at hand.  [rate_sleep r] is [r.sleep()] of
    an [rclcpp::Rate]; [printf_reconnecting s] is the [printf] of line 77. *)
Record Calls (Driver Rate : Type) : Type := mkCalls {
  rclcpp_ok : Driver -> bool;
  RunOnce : M Driver bool;
  spin_some : M Driver unit;
  printf_reconnecting : Q -> M Driver unit;
  sleep_for : Z -> M Driver unit;
  Connect : M Driver unit;
  rate_sleep : Rate -> M Driver unit
}.

(** How a bounded run of the loop ends: the condition was found false,
    the bound was reached with the loop still going, or an exception left
    the loop. *)
Inductive run (Driver : Type) : Type :=
| Exited (d : Driver)
| Running (d : Driver)
| Threw (e : exception) (d : Driver).
Arguments Exited {Driver} d.
Arguments Running {Driver} d.
Arguments Threw {Driver} e d.

Definition state_of {Driver : Type} (r : run Driver) : Driver :=
  match r with
  | Exited d => d
  | Running d => d
  | Threw _ d => d
  end.

Section RunLoop.

Variable Driver : Type.
Variable Rate : Type.

(** The type of [params_.fp_output.rate] and the constructor of
    [rclcpp::Rate] (line 66). *)
Variable RateParam : Type.
Variable Rate_ctor : RateParam -> Rate.

Variable c : Calls Driver Rate.

(** The body of the [while] loop (lines 71-83). *)
Definition Run_body (rate : Rate) (seconds : Q) (delay : Z) : M Driver unit :=
  (connection_ok <- RunOnce c ;;
   spin_some c ;;
   if negb connection_ok then
     printf_reconnecting c seconds ;;
     sleep_for c delay ;;
     Connect c
   else
     rate_sleep c rate)%cpp.

(** [while (rclcpp::ok()) { ... }], at most [fuel] turns. *)
Fixpoint Run_loop (fuel : nat) (rate : Rate) (seconds : Q) (delay : Z)
         (d : Driver) : run Driver :=
  match fuel with
  | O => Running d
  | S fuel' =>
      if rclcpp_ok c d then
        match Run_body rate seconds delay d with
        | (Normal _, d') => Run_loop fuel' rate seconds delay d'
        | (Throw e, d') => Threw e d'
        end
      else Exited d
  end.

(** [FixpositionDriverNode::Run] (lines 65-85); [None] when the cast of
    the delay is undefined. *)
Definition Run (fuel : nat) (rate : RateParam) (reconnect_delay : Q)
           (d : Driver) : option (run Driver) :=
  let r := Rate_ctor rate in
  match Node.reconnect_delay_ns reconnect_delay with
  | Some delay => Some (Run_loop fuel r reconnect_delay delay d)
  | None => None
  end.


(** One of the calls throws [e] in some state. *)
Definition some_call_throws (e : exception) : Prop :=
  (exists d, fst (RunOnce c d) = Throw e) \/
  (exists d, fst (spin_some c d) = Throw e) \/
  (exists s d, fst (printf_reconnecting c s d) = Throw e) \/
  (exists ns d, fst (sleep_for c ns d) = Throw e) \/
  (exists d, fst (Connect c d) = Throw e) \/
  (exists r d, fst (rate_sleep c r d) = Throw e).

(** *** Calls that log themselves *)

(** Which function was called, with its argument. *)
Inductive call : Type :=
| CallRunOnce
| CallSpinSome
| CallPrintf (seconds : Q)
| CallSleepFor (ns : Z)
| CallConnect
| CallRateSleep (rate : Rate).

(** How the call ended. *)
Inductive ending : Type :=
| ReturnedBool (b : bool)
| Returned
| Raised (e : exception).

Definition event : Type := (call * ending)%type.

(** The driver together with the calls made on it so far, oldest first. *)
Definition Logged : Type := (Driver * list event)%type.

(** [m], logging itself as [what] when it ends. *)
Definition logged {A : Type} (what : call) (show : A -> ending)
           (m : M Driver A) : M Logged A :=
  fun dl =>
    let (r, d') := m (fst dl) in
    (r, (d', snd dl ++ [(what, match r with
                                | Normal a => show a
                                | Throw e => Raised e
                                end)])).

(** The same calls, each one logging itself. *)
Definition instrument : Calls Logged Rate :=
  mkCalls
    (fun dl => rclcpp_ok c (fst dl))
    (logged CallRunOnce ReturnedBool (RunOnce c))
    (logged CallSpinSome (fun _ => Returned) (spin_some c))
    (fun s => logged (CallPrintf s) (fun _ => Returned) (printf_reconnecting c s))
    (fun ns => logged (CallSleepFor ns) (fun _ => Returned) (sleep_for c ns))
    (logged CallConnect (fun _ => Returned) (Connect c))
    (fun r => logged (CallRateSleep r) (fun _ => Returned) (rate_sleep c r)).


(** *** Reading a log *)

Definition called_RunOnce (ev : event) : bool :=
  match fst ev with CallRunOnce => true | _ => false end.
Definition called_SpinSome (ev : event) : bool :=
  match fst ev with CallSpinSome => true | _ => false end.
Definition called_Printf (ev : event) : bool :=
  match fst ev with CallPrintf _ => true | _ => false end.
Definition called_SleepFor (ev : event) : bool :=
  match fst ev with CallSleepFor _ => true | _ => false end.
Definition called_Connect (ev : event) : bool :=
  match fst ev with CallConnect => true | _ => false end.
Definition called_RateSleep (ev : event) : bool :=
  match fst ev with CallRateSleep _ => true | _ => false end.
Definition RunOnce_returned (ok : bool) (ev : event) : bool :=
  match ev with
  | (CallRunOnce, ReturnedBool b) => Bool.eqb b ok
  | _ => false
  end.
Definition raised (ev : event) : bool :=
  match snd ev with Raised _ => true | _ => false end.

Definition count (f : event -> bool) (log : list event) : nat :=
  length (filter f log).

(** Every call in the log was given the argument [Run] holds for it. *)
Definition arguments_ok (rate : Rate) (seconds : Q) (delay : Z)
           (log : list event) : Prop :=
  forall what how,
    In (what, how) log ->
    match what with
    | CallPrintf s => s = seconds
    | CallSleepFor ns => ns = delay
    | CallRateSleep r => r = rate
    | _ => True
    end.

(** A log of whole cycles: no call threw; one fixed-rate sleep per cycle
    that returned true; one message, one delay and one [Connect] per cycle
    that returned false; one [spin_some] per cycle. *)
Definition balanced (log : list event) : Prop :=
  count raised log = 0 /\
  count called_RateSleep log = count (RunOnce_returned true) log /\
  count called_Printf log = count (RunOnce_returned false) log /\
  count called_SleepFor log = count (RunOnce_returned false) log /\
  count called_Connect log = count (RunOnce_returned false) log /\
  count called_SpinSome log = count called_RunOnce log.

End RunLoop.

Arguments CallRunOnce {Rate}.
Arguments CallSpinSome {Rate}.
Arguments CallPrintf {Rate} seconds.
Arguments CallSleepFor {Rate} ns.
Arguments CallConnect {Rate}.
Arguments CallRateSleep {Rate} rate.

(** Calls that always return, from the functions of [Node.Run_body]. *)
Definition of_total {Driver : Type}
           (ok : Driver -> bool) (run_once : Driver -> bool * Driver)
           (spin : Driver -> Driver) (sleep : Z -> Driver -> Driver)
           (connect : Driver -> Driver) (rsleep : Driver -> Driver)
  : Calls Driver unit :=
  mkCalls ok
          (fun d => let (b, d') := run_once d in (Normal b, d'))
          (fun d => (Normal tt, spin d))
          (fun _ d => (Normal tt, d))
          (fun ns d => (Normal tt, sleep ns d))
          (fun d => (Normal tt, connect d))
          (fun _ d => (Normal tt, rsleep d)).

(** The run of [Node.Run_loop] without its trace. *)
Definition of_traced {Driver : Type} (r : Node.run Driver) : run Driver :=
  match r with
  | Node.Exited d _ => Exited d
  | Node.Running d _ => Running d
  end.

End Loop.

(** ** The values of a [double] *)

Module Fp.

(** A [double] is a finite number, given by its exact rational value, an
    infinity or a NaN. *)
Inductive double : Type :=
| Finite (q : Q)
| Infinity (negative : bool)
| NaN.

(** [(uint64_t)d]: undefined for a NaN and for the infinities, as for
    every value whose truncation does not fit. *)
Definition double_to_uint64 (d : double) : option Z :=
  match d with
  | Finite q => Node.double_to_uint64 q
  | _ => None
  end.

(** The delay of [Run] (lines 67-68) for any [double]. *)
Definition reconnect_delay_ns (reconnect_delay : double) : option Z :=
  match double_to_uint64 reconnect_delay with
  | Some s =>
      Some (Node.uint64_to_int64
              (Node.mul_uint64
                 (Node.mul_uint64 (Node.mul_uint64 s 1000) 1000) 1000))
  | None => None
  end.

End Fp.

(** ** Instances for the counterexamples *)

Module Cases.

(** The frame of the first scenario with another rotation. *)
Definition tf_frame_half : list string :=
  ["$FP"; "TF"; "1"; "POI"; "ECEF"; "1.0"; "2.0"; "3.0"; "0.5"; "0.5"; "0.5"; "0.5"].

(** A converter without observers that has decoded [frame]. *)
Definition after (frame : list string) : Tf.State Q Decimal.World :=
  snd (Decimal.ConvertTokens frame (Decimal.start [])).






End Cases.


(** * Properties *)

(** ** TfConverter *)

Module TfFacts.

Import Tf.

Section Facts.

Variable double : Type.
Variable StringToDouble : string -> result double.
Variable World : Type.
Variable TfData_ctor : TfData double.

Abbreviation TfData := (Tf.TfData double).
Abbreviation TfObserver := (Tf.TfObserver double World).
Abbreviation State := (Tf.State double World).
Abbreviation ConvertTokens :=
  (Tf.ConvertTokens StringToDouble (World := World) TfData_ctor).

(** The loop does what [run_observers] computes, leaves the converter and
    [std::cout] alone, and logs one invocation per observer reached. *)
Lemma process_observers_run (obs : list TfObserver) :
  forall (i : nat) (st : State),
    process_observers i obs st =
    let '(r, w, k) := run_observers (msg_ (self st)) obs (world st) in
    (outcome r,
     mkState (self st) (cout st) w
             (calls st ++ invocations i k (msg_ (self st)))).
Proof.
  induction obs as [|ob rest IH]; intros i st.
  - destruct st as [c o w l]; cbn. now rewrite app_nil_r.
  - cbn [process_observers run_observers].
    unfold bind, call_observer.
    destruct (ob (msg_ (self st)) (world st)) as [[e|] w'] eqn:Hob.
    + reflexivity.
    + rewrite IH; cbn [self cout world calls].
      destruct (run_observers (msg_ (self st)) rest w') as [[r w''] k].
      unfold invocations; cbn [seq map].
      now rewrite <- app_assoc.
Qed.

(** Observers that complete are all run, each from the world its
    predecessor left. *)
Lemma run_observers_complete (m : TfData) (obs : list TfObserver) :
  forall w,
    (forall ob, In ob obs -> forall w', fst (ob m w') = None) ->
    run_observers m obs w = (None, world_after m obs w, length obs).
Proof.
  induction obs as [|ob rest IH]; intros w Hn; [reflexivity|].
  cbn [run_observers world_after fold_left length].
  pose proof (Hn ob (or_introl eq_refl) w) as Hob.
  destruct (ob m w) as [r w'] eqn:E; cbn in Hob; subst r.
  rewrite IH by (intros; apply Hn; now right).
  reflexivity.
Qed.

(** The first observer that throws ends the loop: the ones after it are
    not reached. *)
Lemma run_observers_throw (m : TfData) (pre post : list TfObserver)
      (ob : TfObserver) (e : exception) :
  forall w,
    (forall o, In o pre -> forall w', fst (o m w') = None) ->
    fst (ob m (world_after m pre w)) = Some e ->
    run_observers m (pre ++ ob :: post) w =
    (Some e, snd (ob m (world_after m pre w)), S (length pre)).
Proof.
  induction pre as [|o pre IH]; intros w Hn He.
  - cbn in *. destruct (ob m w) as [r w']; cbn in *; now subst r.
  - cbn [app run_observers].
    pose proof (Hn o (or_introl eq_refl) w) as Ho.
    destruct (o m w) as [r w'] eqn:E; cbn in Ho; subst r.
    cbn [world_after fold_left] in He. rewrite E in He; cbn [snd] in He.
    rewrite (IH w') by (auto; intros; apply Hn; now right).
    cbn [world_after fold_left length]. now rewrite E.
Qed.

(** Splits a frame known to have twelve tokens into its tokens. *)
Ltac frame12 tokens H :=
  do 12 (destruct tokens as [|? tokens]; [discriminate H|]);
  destruct tokens; [clear H|discriminate H].

(** With twelve tokens and numeric text in the seven numeric fields, the
    record is filled and the observers are run on it. *)
Lemma ConvertTokens_decoded (tokens : list string) (st : State)
      (tx ty tz ow ox oy oz : double) :
  length tokens = 12 ->
  StringToDouble (token tokens translation_x_idx) = Normal tx ->
  StringToDouble (token tokens translation_y_idx) = Normal ty ->
  StringToDouble (token tokens translation_z_idx) = Normal tz ->
  StringToDouble (token tokens orientation_w_idx) = Normal ow ->
  StringToDouble (token tokens orientation_x_idx) = Normal ox ->
  StringToDouble (token tokens orientation_y_idx) = Normal oy ->
  StringToDouble (token tokens orientation_z_idx) = Normal oz ->
  ConvertTokens tokens st =
  process_observers 0 (obs_ (self st))
    (with_msg (mkTfData ("FP_" ++ token tokens from_frame_idx)
                        ("FP_" ++ token tokens to_frame_idx)
                        (mkVector3d tx ty tz) (mkQuaterniond ow ox oy oz))
              st).
Proof.
  intros H Htx Hty Htz How Hox Hoy Hoz.
  frame12 tokens H.
  cbn [token nth translation_x_idx translation_y_idx translation_z_idx
       orientation_w_idx orientation_x_idx orientation_y_idx
       orientation_z_idx from_frame_idx to_frame_idx] in *.
  unfold Tf.ConvertTokens, Vector3ToEigen, Vector4ToEigen.
  cbn [length Nat.eqb negb]. unfold bind, at_, lift, set_msg, modify, gets, ret.
  cbn [nth_error translation_x_idx translation_y_idx translation_z_idx
       orientation_w_idx orientation_x_idx orientation_y_idx
       orientation_z_idx from_frame_idx to_frame_idx].
  rewrite Htx, Hty, Htz, How, Hox, Hoy, Hoz.
  reflexivity.
Qed.

(** With another number of tokens, the diagnostic is printed, the record
    is replaced by [TfData()] and the function returns. *)
Lemma ConvertTokens_rejected (tokens : list string) (st : State) :
  length tokens <> 12 ->
  ConvertTokens tokens st =
  (Normal tt,
   mkState (mkTfConverter TfData_ctor (obs_ (self st)))
           (((cout st ++ "Error in parsing TF string with ")
               ++ size_to_string (length tokens))
              ++ " fields! TFs will be empty." ++ newline)
           (world st) (calls st)).
Proof.
  intros H. unfold Tf.ConvertTokens.
  destruct (Nat.eqb_spec (length tokens) 12) as [E|_]; [contradiction|].
  reflexivity.
Qed.

(** A loop that was not stopped reached every observer. *)
Lemma run_observers_all (m : TfData) (obs : list TfObserver) :
  forall w w' k,
    run_observers m obs w = (None, w', k) -> k = length obs.
Proof.
  induction obs as [|ob rest IH]; intros w w' k H; cbn in H.
  - now inversion H.
  - destruct (ob m w) as [[e|] w1]; [discriminate|].
    destruct (run_observers m rest w1) as [[r w2] k'] eqn:E.
    inversion H; subst. cbn [length]. f_equal. eapply IH; eassumption.
Qed.

(** The numeric fields of a frame are positions 5 to 11. *)
Definition numeric_idx (i : nat) : Prop :=
  translation_x_idx <= i <= orientation_z_idx.

(** With twelve tokens of which a numeric one is rejected by the parser,
    the parser's exception leaves [ConvertTokens]: nothing is printed, no
    observer is reached, and the frame names are already stored. *)
Lemma ConvertTokens_parse_throw (tokens : list string) (st : State)
      (i : nat) (e : exception) :
  length tokens = 12 ->
  numeric_idx i ->
  StringToDouble (token tokens i) = Throw e ->
  exists (j : nat) (e' : exception) (t : Vector3d double)
         (q : Quaterniond double),
    numeric_idx j /\
    StringToDouble (token tokens j) = Throw e' /\
    ConvertTokens tokens st =
    (Throw e',
     with_msg (mkTfData ("FP_" ++ token tokens from_frame_idx)
                        ("FP_" ++ token tokens to_frame_idx) t q) st) /\
    (t = translation (msg_ (self st)) \/
     exists tx ty tz,
       StringToDouble (token tokens translation_x_idx) = Normal tx /\
       StringToDouble (token tokens translation_y_idx) = Normal ty /\
       StringToDouble (token tokens translation_z_idx) = Normal tz /\
       t = mkVector3d tx ty tz) /\
    q = rotation (msg_ (self st)).
Proof.
  unfold numeric_idx, translation_x_idx, translation_y_idx, translation_z_idx,
    orientation_w_idx, orientation_x_idx, orientation_y_idx,
    orientation_z_idx, from_frame_idx, to_frame_idx.
  intros H Hi He. frame12 tokens H.
  unfold Tf.ConvertTokens, Vector3ToEigen, Vector4ToEigen.
  cbn [length Nat.eqb negb token nth].
  unfold bind, at_, lift, set_msg, modify, gets, ret, throw, with_msg,
    translation_x_idx, translation_y_idx, translation_z_idx,
    orientation_w_idx, orientation_x_idx, orientation_y_idx,
    orientation_z_idx, from_frame_idx, to_frame_idx.
  cbn [nth_error].
  repeat match goal with
         | |- context [match StringToDouble ?t with _ => _ end] =>
             let E := fresh "E" in
             destruct (StringToDouble t) eqn:E
         end;
    cbn [self msg_ obs_ cout world calls frame_id child_frame_id
         translation rotation set_frame_id set_child_frame_id
         set_translation set_rotation].
  all: unfold set_frame_id, set_child_frame_id, set_translation,
         set_rotation;
    cbn [frame_id child_frame_id translation rotation].
  all: try solve
    [ exfalso;
      assert (Hc : i = 5 \/ i = 6 \/ i = 7 \/ i = 8 \/ i = 9 \/ i = 10
                   \/ i = 11) by lia;
      repeat (destruct Hc as [Hc|Hc]; [subst i; cbn in He; congruence|]);
      subst i; cbn in He; congruence ].
  all: let close j :=
         (exists j; do 3 eexists;
          split; [lia|];
          split; [cbn [nth]; eassumption|];
          split; [reflexivity|];
          split; [|reflexivity];
          first [ left; reflexivity
                | right; do 3 eexists; repeat split; eassumption ]) in
       first [ solve [close 5] | solve [close 6] | solve [close 7]
             | solve [close 8] | solve [close 9] | solve [close 10]
             | solve [close 11] ].
Qed.

(** Every numeric field of a frame either parses, or one of them throws. *)
Lemma numeric_fields_cases (tokens : list string) :
  (exists tx ty tz ow ox oy oz,
      StringToDouble (token tokens translation_x_idx) = Normal tx /\
      StringToDouble (token tokens translation_y_idx) = Normal ty /\
      StringToDouble (token tokens translation_z_idx) = Normal tz /\
      StringToDouble (token tokens orientation_w_idx) = Normal ow /\
      StringToDouble (token tokens orientation_x_idx) = Normal ox /\
      StringToDouble (token tokens orientation_y_idx) = Normal oy /\
      StringToDouble (token tokens orientation_z_idx) = Normal oz) \/
  (exists i e, numeric_idx i /\ StringToDouble (token tokens i) = Throw e).
Proof.
  unfold numeric_idx, translation_x_idx, translation_y_idx, translation_z_idx,
    orientation_w_idx, orientation_x_idx, orientation_y_idx, orientation_z_idx.
  destruct (StringToDouble (token tokens 5)) as [tx|e] eqn:E5;
    [|right; exists 5, e; split; [lia|assumption]].
  destruct (StringToDouble (token tokens 6)) as [ty|e] eqn:E6;
    [|right; exists 6, e; split; [lia|assumption]].
  destruct (StringToDouble (token tokens 7)) as [tz|e] eqn:E7;
    [|right; exists 7, e; split; [lia|assumption]].
  destruct (StringToDouble (token tokens 8)) as [ow|e] eqn:E8;
    [|right; exists 8, e; split; [lia|assumption]].
  destruct (StringToDouble (token tokens 9)) as [ox|e] eqn:E9;
    [|right; exists 9, e; split; [lia|assumption]].
  destruct (StringToDouble (token tokens 10)) as [oy|e] eqn:E10;
    [|right; exists 10, e; split; [lia|assumption]].
  destruct (StringToDouble (token tokens 11)) as [oz|e] eqn:E11;
    [|right; exists 11, e; split; [lia|assumption]].
  left. exists tx, ty, tz, ow, ox, oy, oz. now repeat split.
Qed.

Lemma invocations_fst (i k : nat) (m : TfData) :
  map fst (invocations i k m) = seq i k.
Proof.
  unfold invocations. rewrite map_map. cbn. apply map_id.
Qed.

Lemma invocations_snd (i k : nat) (m : TfData) (p : nat * TfData) :
  In p (invocations i k m) -> snd p = m.
Proof.
  unfold invocations. intros H. apply in_map_iff in H.
  destruct H as (j & <- & _). reflexivity.
Qed.

(** C1: for every frame of twelve tokens whose numeric fields parse,
    [ConvertTokens] leaves in the converter the record whose [frame_id] is
    "FP_" followed by token 3, whose [child_frame_id] is "FP_" followed by
    token 4, whose translation is the parsed tokens 5, 6, 7 as x, y, z and
    whose rotation is the parsed tokens 8, 9, 10, 11 as w, x, y, z; the
    observers it reaches are handed that record. *)
Theorem ConvertTokens_fields (tokens : list string) (st : State)
        (tx ty tz ow ox oy oz : double) :
  length tokens = 12 ->
  StringToDouble (token tokens 5) = Normal tx ->
  StringToDouble (token tokens 6) = Normal ty ->
  StringToDouble (token tokens 7) = Normal tz ->
  StringToDouble (token tokens 8) = Normal ow ->
  StringToDouble (token tokens 9) = Normal ox ->
  StringToDouble (token tokens 10) = Normal oy ->
  StringToDouble (token tokens 11) = Normal oz ->
  let record :=
    mkTfData ("FP_" ++ token tokens 3) ("FP_" ++ token tokens 4)
             (mkVector3d tx ty tz) (mkQuaterniond ow ox oy oz) in
  let st' := snd (ConvertTokens tokens st) in
  msg_ (self st') = record /\
  exists k, calls st' = calls st ++ invocations 0 k record.
Proof.
  intros H Htx Hty Htz How Hox Hoy Hoz record st'.
  subst st'.
  rewrite (@ConvertTokens_decoded tokens st tx ty tz ow ox oy oz)
    by assumption.
  rewrite process_observers_run.
  cbn [with_msg self msg_ obs_ world cout calls].
  destruct (run_observers _ _ _) as [[r w] k].
  cbn [snd self msg_ calls]. split; [reflexivity|]. now exists k.
Qed.

(** C2, as the code has it: for every frame whose number of tokens is not
    12, [ConvertTokens] returns normally, as it does after a decode: there is
    no error value.  It writes to [std::cout] a text that names the actual
    count and not the expected one, resets the retained record to
    [TfData()], and invokes no observer. *)
Theorem ConvertTokens_field_count_mismatch (tokens : list string) (st : State) :
  length tokens <> 12 ->
  let st' := snd (ConvertTokens tokens st) in
  fst (ConvertTokens tokens st) = Normal tt /\
  msg_ (self st') = TfData_ctor /\
  obs_ (self st') = obs_ (self st) /\
  cout st' =
    (((cout st ++ "Error in parsing TF string with ")
        ++ size_to_string (length tokens))
       ++ " fields! TFs will be empty." ++ newline)%string /\
  calls st' = calls st /\
  world st' = world st.
Proof.
  intros H st'. subst st'.
  rewrite ConvertTokens_rejected by assumption.
  cbn. now repeat split.
Qed.

(** How the loop over the observers ends: it reaches at most all of
    them; when it is not stopped it reached all of them; when it is stopped
    by [e], the observer that threw [e] is the last it reached, and the
    observers before it ran to completion. *)
Lemma run_observers_shape (m : TfData) (obs : list TfObserver) :
  forall w r w' k,
    run_observers m obs w = (r, w', k) ->
    k <= length obs /\
    match r with
    | None => k = length obs /\ w' = world_after m obs w
    | Some e =>
        exists pre ob post,
          obs = pre ++ ob :: post /\
          k = S (length pre) /\
          ob m (world_after m pre w) = (Some e, w')
    end.
Proof.
  induction obs as [|ob rest IH]; intros w r w' k H; cbn in H.
  - injection H as <- <- <-. cbn. now repeat split.
  - destruct (ob m w) as [[e|] w1] eqn:E.
    + injection H as <- <- <-. split; [cbn; lia|].
      exists [], ob, rest. cbn. now repeat split.
    + destruct (run_observers m rest w1) as [[r1 w2] k1] eqn:E1.
      injection H as <- <- <-.
      destruct (IH _ _ _ _ E1) as [Hk Hr]. split; [cbn; lia|].
      destruct r1 as [e|].
      * destruct Hr as (pre & o & post & -> & -> & Ho).
        exists (ob :: pre), o, post. cbn [app length world_after fold_left].
        rewrite E. cbn [snd]. now repeat split.
      * destruct Hr as [-> ->]. cbn [length world_after fold_left].
        rewrite E. now split.
Qed.

(** C3, as the code has it: on a successful decode the registered
    observers are invoked synchronously in registration order, each at most
    once and each with the same decoded record, up to and including the
    first observer that throws: positions 0, 1, ..., k-1 of [obs_].  When the
    call returns, every registered observer was invoked exactly once (k is
    their number); when an observer throws, it is the last one invoked and
    the observers after it are not invoked; when no observer throws, the
    call returns. *)
Theorem ConvertTokens_notifies_in_order (tokens : list string) (st : State)
        (tx ty tz ow ox oy oz : double) :
  length tokens = 12 ->
  StringToDouble (token tokens 5) = Normal tx ->
  StringToDouble (token tokens 6) = Normal ty ->
  StringToDouble (token tokens 7) = Normal tz ->
  StringToDouble (token tokens 8) = Normal ow ->
  StringToDouble (token tokens 9) = Normal ox ->
  StringToDouble (token tokens 10) = Normal oy ->
  StringToDouble (token tokens 11) = Normal oz ->
  let record :=
    mkTfData ("FP_" ++ token tokens 3) ("FP_" ++ token tokens 4)
             (mkVector3d tx ty tz) (mkQuaterniond ow ox oy oz) in
  let obs := obs_ (self st) in
  let st' := snd (ConvertTokens tokens st) in
  exists k delta,
    k <= length obs /\
    calls st' = calls st ++ delta /\
    map fst delta = seq 0 k /\
    (forall p, In p delta -> snd p = record) /\
    (fst (ConvertTokens tokens st) = Normal tt ->
     k = length obs /\ world st' = world_after record obs (world st)) /\
    (forall e,
        fst (ConvertTokens tokens st) = Throw e ->
        exists pre ob post,
          obs = pre ++ ob :: post /\
          k = S (length pre) /\
          ob record (world_after record pre (world st)) =
          (Some e, world st')) /\
    ((forall ob, In ob obs -> forall w, fst (ob record w) = None) ->
     fst (ConvertTokens tokens st) = Normal tt).
Proof.
  intros H Htx Hty Htz How Hox Hoy Hoz record obs st'. subst st' obs.
  rewrite (@ConvertTokens_decoded tokens st tx ty tz ow ox oy oz)
    by assumption.
  rewrite process_observers_run.
  cbn [with_msg self msg_ obs_ world cout calls].
  unfold from_frame_idx, to_frame_idx. fold record.
  destruct (run_observers record (obs_ (self st)) (world st))
    as [[r w'] k] eqn:E.
  destruct (run_observers_shape _ _ _ E) as [Hk Hr].
  cbn [fst snd world calls].
  exists k, (invocations 0 k record).
  split; [exact Hk|]. split; [reflexivity|].
  split; [apply invocations_fst|]. split; [apply invocations_snd|].
  split; [|split].
  - destruct r as [e|]; [discriminate|]. intros _. exact Hr.
  - intros e He. destruct r as [e'|]; [|discriminate He].
    injection He as ->. exact Hr.
  - intros Hobs. rewrite run_observers_complete in E by assumption.
    injection E as <- _ _. reflexivity.
Qed.

(** C4, as the code has it: on a successful decode, when the observers
    before position i return and the observer at position i throws, the
    exception leaves [ConvertTokens]; positions 0..i were invoked, once each
    and in order, and no observer after position i is invoked. *)
Theorem ConvertTokens_observer_throw_stops_dispatch
        (tokens : list string) (st : State)
        (tx ty tz ow ox oy oz : double)
        (pre post : list TfObserver) (ob : TfObserver) (e : exception) :
  length tokens = 12 ->
  StringToDouble (token tokens 5) = Normal tx ->
  StringToDouble (token tokens 6) = Normal ty ->
  StringToDouble (token tokens 7) = Normal tz ->
  StringToDouble (token tokens 8) = Normal ow ->
  StringToDouble (token tokens 9) = Normal ox ->
  StringToDouble (token tokens 10) = Normal oy ->
  StringToDouble (token tokens 11) = Normal oz ->
  let record :=
    mkTfData ("FP_" ++ token tokens 3) ("FP_" ++ token tokens 4)
             (mkVector3d tx ty tz) (mkQuaterniond ow ox oy oz) in
  obs_ (self st) = pre ++ ob :: post ->
  (forall o, In o pre -> forall w, fst (o record w) = None) ->
  fst (ob record (world_after record pre (world st))) = Some e ->
  let st' := snd (ConvertTokens tokens st) in
  fst (ConvertTokens tokens st) = Throw e /\
  world st' = snd (ob record (world_after record pre (world st))) /\
  exists delta,
    calls st' = calls st ++ delta /\
    map fst delta = seq 0 (S (length pre)) /\
    (forall p, In p delta -> snd p = record) /\
    (forall j, length pre < j -> ~ In j (map fst delta)).
Proof.
  intros H Htx Hty Htz How Hox Hoy Hoz record Hobs Hpre He st'. subst st'.
  rewrite (@ConvertTokens_decoded tokens st tx ty tz ow ox oy oz)
    by assumption.
  rewrite process_observers_run.
  cbn [with_msg self msg_ obs_ world cout calls].
  fold record. rewrite Hobs.
  rewrite (@run_observers_throw record pre post ob e) by assumption.
  cbn [fst snd outcome world calls].
  split; [reflexivity|]. split; [reflexivity|].
  exists (invocations 0 (S (length pre)) record).
  split; [reflexivity|]. split; [apply invocations_fst|].
  split; [apply invocations_snd|].
  intros j Hj Hin. rewrite invocations_fst in Hin.
  apply in_seq in Hin. lia.
Qed.

(** C5, as the code has it: for a frame of twelve tokens one of whose
    numeric fields (5..11) is rejected by the parser, [ConvertTokens] does
    no recovery of its own: the parser's exception leaves the function,
    nothing is printed, no observer is invoked, and the retained record is
    not reset: it already holds the two frame names of this frame. *)
Theorem ConvertTokens_parse_failure_propagates
        (tokens : list string) (st : State) (i : nat) (e : exception) :
  length tokens = 12 ->
  5 <= i <= 11 ->
  StringToDouble (token tokens i) = Throw e ->
  let st' := snd (ConvertTokens tokens st) in
  (exists j e',
      5 <= j <= 11 /\
      StringToDouble (token tokens j) = Throw e' /\
      fst (ConvertTokens tokens st) = Throw e') /\
  frame_id (msg_ (self st')) = ("FP_" ++ token tokens 3)%string /\
  child_frame_id (msg_ (self st')) = ("FP_" ++ token tokens 4)%string /\
  rotation (msg_ (self st')) = rotation (msg_ (self st)) /\
  cout st' = cout st /\
  calls st' = calls st /\
  world st' = world st.
Proof.
  intros H Hi He st'. subst st'.
  destruct (@ConvertTokens_parse_throw tokens st i e H Hi He)
    as (j & e' & t & q & Hj & Hje & Hrun & _ & Hq).
  rewrite Hrun. cbn [fst snd with_msg self msg_ cout calls world
                     frame_id child_frame_id rotation].
  split; [exists j, e'; split; [exact Hj|split; [exact Hje|reflexivity]]|].
  now repeat split.
Qed.

(** C6, as the code has it: unless the number parser throws on the
    frame, decoding does not depend on what the converter held before.  For
    any two earlier states, [ConvertTokens] on the same tokens retains the
    same record, and the observers it invokes are handed that record, in
    both; a call that returns has invoked every registered observer when the
    frame has twelve tokens, and none otherwise, so two calls that return on
    a converter with the same observers make the same invocations. *)
Theorem ConvertTokens_independent_of_prior_state
        (tokens : list string) (st1 st2 : State) :
  (length tokens = 12 ->
   forall i e, 5 <= i <= 11 -> StringToDouble (token tokens i) <> Throw e) ->
  let st1' := snd (ConvertTokens tokens st1) in
  let st2' := snd (ConvertTokens tokens st2) in
  msg_ (self st1') = msg_ (self st2') /\
  exists k1 k2,
    calls st1' = calls st1 ++ invocations 0 k1 (msg_ (self st1')) /\
    calls st2' = calls st2 ++ invocations 0 k2 (msg_ (self st1')) /\
    (fst (ConvertTokens tokens st1) = Normal tt ->
     k1 = if (length tokens =? 12)%nat then length (obs_ (self st1)) else 0) /\
    (fst (ConvertTokens tokens st2) = Normal tt ->
     k2 = if (length tokens =? 12)%nat then length (obs_ (self st2)) else 0).
Proof.
  intros Hparse st1' st2'. subst st1' st2'.
  destruct (Nat.eq_dec (length tokens) 12) as [H|H].
  - destruct (numeric_fields_cases tokens)
      as [(tx & ty & tz & ow & ox & oy & oz & Htx & Hty & Htz & How & Hox
           & Hoy & Hoz) | (i & e & Hi & He)].
    + rewrite (@ConvertTokens_decoded tokens st1 tx ty tz ow ox oy oz)
        by assumption.
      rewrite (@ConvertTokens_decoded tokens st2 tx ty tz ow ox oy oz)
        by assumption.
      rewrite !process_observers_run.
      cbn [with_msg self msg_ obs_ world cout calls].
      destruct (run_observers _ (obs_ (self st1)) _) as [[r1 w1] k1] eqn:E1.
      destruct (run_observers _ (obs_ (self st2)) _) as [[r2 w2] k2] eqn:E2.
      cbn [fst snd self msg_ calls]. split; [reflexivity|].
      exists k1, k2. rewrite H. cbn [Nat.eqb].
      split; [reflexivity|]. split; [reflexivity|].
      split; intros Hn.
      * destruct r1 as [e1|]; [discriminate Hn|].
        eapply run_observers_all; eassumption.
      * destruct r2 as [e2|]; [discriminate Hn|].
        eapply run_observers_all; eassumption.
    + exfalso. exact (Hparse H i e Hi He).
  - rewrite !ConvertTokens_rejected by assumption.
    cbn [fst snd self msg_ calls]. split; [reflexivity|].
    exists 0, 0. cbn [invocations seq map]. rewrite !app_nil_r.
    apply Nat.eqb_neq in H. rewrite H. now repeat split.
Qed.

End Facts.

End TfFacts.

(** ** The driver node *)

Module NodeFacts.

Import Node.

(** *** The reconnect delay *)

Lemma double_to_uint64_floor (d : Q) :
  (0 <= d)%Q -> (Qfloor d < 2 ^ 64)%Z ->
  double_to_uint64 d = Some (Qfloor d).
Proof.
  intros Hd Hf. unfold double_to_uint64.
  assert (Hn : (0 <= Qnum d)%Z).
  { unfold Qle in Hd. cbn in Hd. lia. }
  assert (E : Z.quot (Qnum d) (Z.pos (Qden d)) = Qfloor d).
  { destruct d as [n p]. cbn in *. apply Z.quot_div_nonneg; lia. }
  rewrite E.
  assert (H0 : (0 <= Qfloor d)%Z).
  { destruct d as [n p]. cbn in *. apply Z.div_pos; lia. }
  destruct (Z.leb_spec 0 (Qfloor d)); [|lia].
  destruct (Z.ltb_spec (Qfloor d) (2 ^ 64)); [reflexivity|lia].
Qed.

(** Without overflow the delay passed to [sleep_for] is the whole seconds
    of the configured value, in nanoseconds. *)
Lemma reconnect_delay_ns_whole_seconds (d : Q) :
  (0 <= d)%Q -> (Qfloor d <= 9223372036)%Z ->
  reconnect_delay_ns d = Some (Qfloor d * 1000000000)%Z.
Proof.
  intros Hd Hf. unfold reconnect_delay_ns.
  rewrite double_to_uint64_floor by (try assumption; lia).
  assert (H0 : (0 <= Qfloor d)%Z).
  { destruct d as [n p]. unfold Qle in Hd. cbn in *.
    apply Z.div_pos; lia. }
  f_equal. unfold mul_uint64, uint64_to_int64.
  change (2 ^ 64)%Z with 18446744073709551616%Z.
  change (2 ^ 63)%Z with 9223372036854775808%Z.
  rewrite (Z.mod_small (Qfloor d * 1000)) by lia.
  rewrite (Z.mod_small (Qfloor d * 1000 * 1000)) by lia.
  rewrite (Z.mod_small (Qfloor d * 1000 * 1000 * 1000)) by lia.
  destruct (Z.ltb_spec (Qfloor d * 1000 * 1000 * 1000) 9223372036854775808);
    lia.
Qed.

(** C7: the delay slept on a failed connection is not the configured
    value for a configuration of 1.5 seconds: the delay computed by [Run] is
    1 000 000 000 ns, which is less than 1.5 s; in a run whose second cycle
    fails, [Run] announces 1.5 seconds and then sleeps those 1 000 000 000 ns
    before it reconnects. *)
Theorem reconnect_delay_drops_fraction :
  reconnect_delay_ns (3 # 2) = Some 1000000000%Z /\
  (seconds_to_ns (3 # 2) == 1500000000)%Q /\
  (inject_Z 1000000000 < seconds_to_ns (3 # 2))%Q /\
  Run Scenario.rclcpp_ok Scenario.RunOnce Scenario.spin_some
      Scenario.sleep_for Scenario.Connect Scenario.rate_sleep
      2 (3 # 2) (0 : Scenario.Driver) =
  Some (Running 2
          [DoRunOnce true; DoSpinSome; DoRateSleep;
           DoRunOnce false; DoSpinSome; DoPrintReconnecting (3 # 2);
           DoSleepFor 1000000000; DoConnect]).
Proof.
  split; [reflexivity|]. split; [reflexivity|].
  split; [|reflexivity].
  unfold seconds_to_ns, Qlt; cbn. lia.
Qed.

(** *** The run loop *)

Section RunLoopFacts.

Variable Driver : Type.
Variable rclcpp_ok : Driver -> bool.
Variable RunOnce : Driver -> bool * Driver.
Variable spin_some : Driver -> Driver.
Variable sleep_for : Z -> Driver -> Driver.
Variable Connect : Driver -> Driver.
Variable rate_sleep : Driver -> Driver.
Variable seconds : Q.
Variable delay : Z.

Abbreviation body :=
  (Run_body RunOnce spin_some sleep_for Connect rate_sleep seconds delay).
Abbreviation loop :=
  (fun fuel =>
     Run_loop rclcpp_ok RunOnce spin_some sleep_for Connect rate_sleep
              fuel seconds delay).
Abbreviation turns :=
  (fun k =>
     after_turns RunOnce spin_some sleep_for Connect rate_sleep k seconds delay).

(** Each turn calls [RunOnce] exactly once. *)
Lemma Run_body_one_RunOnce (d : Driver) :
  length (filter is_RunOnce (snd (body d))) = 1.
Proof.
  unfold Run_body. destruct (RunOnce d) as [[|] d1]; reflexivity.
Qed.

End RunLoopFacts.

(** *** Observers that publish *)

Section PublishingFacts.

Variable double : Type.
Variable zero : double.
Variable Time : Type.
Variable Transform : Type.
Variable NavSatFixFields : Type.
Variable NavSatFix : Type.
Variable Oem7MessageHeaderMem : Type.
Variable BESTGNSSPOSMem : Type.
Variable NovToData :
  Oem7MessageHeaderMem -> BESTGNSSPOSMem -> NavSatFixData NavSatFixFields.
Variable NavSatFixDataToMsg : NavSatFixData NavSatFixFields -> NavSatFix.
Variable TfDataToMsg : Tf.TfData double -> TransformStamped Time Transform.
Variable QuatToEul : Tf.Quaterniond double -> Tf.Vector3d double.

Abbreviation Ros := (Node.Ros double Time NavSatFix).
Abbreviation Message := (Node.Message double Time NavSatFix).
Abbreviation BestGnssPos :=
  (BestGnssPosToPublishNavSatFix (double := double) (Time := Time)
                                 NovToData NavSatFixDataToMsg).
Abbreviation TfLambda :=
  (TfObserverLambda zero (NavSatFix := NavSatFix) TfDataToMsg QuatToEul).

(** What [BestGnssPosToPublishNavSatFix] does, branch by branch. *)
Lemma BestGnssPos_run (header : Oem7MessageHeaderMem)
      (payload : BESTGNSSPOSMem) (ros : Ros) :
  let nav := NovToData header payload in
  let msg : Message := NavSatFixMsg double Time (NavSatFixDataToMsg nav) in
  BestGnssPos header payload ros =
  (Normal tt,
   mkRos (subscription_count ros)
         (published ros ++
            if (nav_frame_id nav =? "GNSS1") || (nav_frame_id nav =? "GNSS")
            then
              if (0 <? subscription_count ros navsatfix_gnss1_pub_)%nat
              then [(navsatfix_gnss1_pub_, msg)] else []
            else if nav_frame_id nav =? "GNSS2" then
              if (0 <? subscription_count ros navsatfix_gnss2_pub_)%nat
              then [(navsatfix_gnss2_pub_, msg)] else []
            else [])).
Proof.
  intros nav msg. subst nav msg.
  unfold BestGnssPosToPublishNavSatFix.
  destruct ros as [cnt pubs].
  destruct ((nav_frame_id (NovToData header payload) =? "GNSS1")
            || (nav_frame_id (NovToData header payload) =? "GNSS")).
  - unfold bind, get_subscription_count, gets, publish, modify, ret;
      cbn [subscription_count published].
    destruct (0 <? cnt navsatfix_gnss1_pub_)%nat; cbn;
      [reflexivity|now rewrite app_nil_r].
  - destruct (nav_frame_id (NovToData header payload) =? "GNSS2").
    + unfold bind, get_subscription_count, gets, publish, modify, ret;
        cbn [subscription_count published].
      destruct (0 <? cnt navsatfix_gnss2_pub_)%nat; cbn;
        [reflexivity|now rewrite app_nil_r].
    + unfold ret; cbn. now rewrite app_nil_r.
Qed.

(** C9: for every BestGnssPos record, with [nav] the data [NovToData]
    makes of it: a NavSatFix is published on the gnss1 publisher exactly when
    the frame id of [nav] is "GNSS1" or "GNSS" and that publisher has a
    subscriber, on the gnss2 publisher exactly when the frame id is "GNSS2"
    and that publisher has a subscriber; nothing else is published, so for
    any other frame id nothing is. *)
Theorem BestGnssPos_publishes_by_frame_id
        (header : Oem7MessageHeaderMem) (payload : BESTGNSSPOSMem) (ros : Ros) :
  let nav := NovToData header payload in
  let msg : Message := NavSatFixMsg double Time (NavSatFixDataToMsg nav) in
  let ros' := snd (BestGnssPos header payload ros) in
  fst (BestGnssPos header payload ros) = Normal tt /\
  exists new,
    published ros' = published ros ++ new /\
    length new <= 1 /\
    (In (navsatfix_gnss1_pub_, msg) new <->
     (nav_frame_id nav = "GNSS1" \/ nav_frame_id nav = "GNSS") /\
     0 < subscription_count ros navsatfix_gnss1_pub_) /\
    (In (navsatfix_gnss2_pub_, msg) new <->
     nav_frame_id nav = "GNSS2" /\
     0 < subscription_count ros navsatfix_gnss2_pub_) /\
    (forall p m, In (p, m) new ->
                 m = msg /\ (p = navsatfix_gnss1_pub_ \/ p = navsatfix_gnss2_pub_)) /\
    (nav_frame_id nav <> "GNSS1" -> nav_frame_id nav <> "GNSS" ->
     nav_frame_id nav <> "GNSS2" -> new = []).
Proof.
  intros nav msg ros'. subst ros'.
  rewrite BestGnssPos_run. fold nav. fold msg. cbn [fst snd published].
  split; [reflexivity|].
  eexists; split; [reflexivity|].
  destruct (String.eqb_spec (nav_frame_id nav) "GNSS1") as [E1|E1];
    destruct (String.eqb_spec (nav_frame_id nav) "GNSS") as [E0|E0];
    destruct (String.eqb_spec (nav_frame_id nav) "GNSS2") as [E2|E2];
    try (rewrite E1 in *; discriminate);
    try (rewrite E0 in *; discriminate);
    cbn [orb];
    destruct (Nat.ltb_spec 0 (subscription_count ros navsatfix_gnss1_pub_));
    destruct (Nat.ltb_spec 0 (subscription_count ros navsatfix_gnss2_pub_));
    cbn [length In];
    repeat match goal with |- _ /\ _ => split | |- _ <-> _ => split end;
    intros;
    repeat match goal with
           | H : _ \/ False |- _ => destruct H as [H|[]]
           | H : False |- _ => destruct H
           | H : _ /\ _ |- _ => destruct H
           | H : (_, _) = (_, _) |- _ => inversion H; clear H
           end;
    try discriminate; try congruence; try lia; auto;
    try (exfalso; intuition congruence).
Qed.

(** The vector the TF observer publishes for [data]. *)
Lemma TfLambda_run (data : Tf.TfData double) (ros : Ros) :
  let tf := TfDataToMsg data in
  let imu_ypr : Message :=
    Vector3StampedMsg NavSatFix
      (mkVector3Stamped
         (mkHeader (stamp (tf_header tf)) "FP_POI")
         (mkVector3 zero (Tf.y (QuatToEul (Tf.rotation data)))
                    (Tf.z (QuatToEul (Tf.rotation data))))) in
  TfLambda data ros =
  (None,
   mkRos (subscription_count ros)
         (published ros ++
            if (child_frame_id tf =? "FP_IMUH")
               && (frame_id (tf_header tf) =? "FP_POI")
            then [(eul_imu_pub_, imu_ypr)] else [])).
Proof.
  intros tf imu_ypr. subst tf imu_ypr.
  unfold TfObserverLambda, TfObserverBody.
  destruct ros as [cnt pubs].
  destruct ((child_frame_id (TfDataToMsg data) =? "FP_IMUH")
            && (frame_id (tf_header (TfDataToMsg data)) =? "FP_POI")).
  - reflexivity.
  - unfold ret; cbn. now rewrite app_nil_r.
Qed.

(** C10: when [TfDataToMsg] carries the two frame names of the record
    into the message, the TF observer publishes at most one message, only on
    the IMU yaw-pitch-roll publisher, and it does so exactly for the records
    whose [child_frame_id] is "FP_IMUH" and whose [frame_id] is "FP_POI"; the
    x component of every vector it publishes is the literal 0.0, whatever the
    rotation of the record. *)
Theorem TfObserver_imu_ypr_has_zero_yaw
        (data : Tf.TfData double) (ros : Ros) :
  (forall d, child_frame_id (TfDataToMsg d) = Tf.child_frame_id d /\
             frame_id (tf_header (TfDataToMsg d)) = Tf.frame_id d) ->
  let ros' := snd (TfLambda data ros) in
  fst (TfLambda data ros) = None /\
  exists new,
    published ros' = published ros ++ new /\
    length new <= 1 /\
    (new <> [] <->
     Tf.child_frame_id data = "FP_IMUH" /\ Tf.frame_id data = "FP_POI") /\
    (forall p m,
        In (p, m) new ->
        p = eul_imu_pub_ /\
        exists v, m = Vector3StampedMsg NavSatFix v /\
                  x (vector v) = zero /\
                  y (vector v) = Tf.y (QuatToEul (Tf.rotation data)) /\
                  z (vector v) = Tf.z (QuatToEul (Tf.rotation data)) /\
                  frame_id (header v) = "FP_POI").
Proof.
  intros Hids ros'. subst ros'.
  rewrite TfLambda_run. cbn [fst snd published].
  destruct (Hids data) as [-> ->].
  split; [reflexivity|].
  eexists; split; [reflexivity|].
  destruct (String.eqb_spec (Tf.child_frame_id data) "FP_IMUH") as [Ec|Ec];
    destruct (String.eqb_spec (Tf.frame_id data) "FP_POI") as [Ef|Ef];
    cbn [andb length In].
  2-4: repeat split; try lia; try tauto; intros; tauto.
  split; [lia|]. split; [split; [tauto|discriminate]|].
  intros p m [H|[]]. inversion H; subst p m; clear H.
  split; [reflexivity|]. eexists. split; [reflexivity|].
  cbn. now repeat split.
Qed.

End PublishingFacts.

End NodeFacts.

(** ** The scenarios *)

Module Scenarios.

Import Decimal.

(** The frame of the spec's scenario decodes to FP_POI, FP_ECEF,
    (1, 2, 3) and (1, 0, 0, 0). *)
Lemma ConvertTokens_fields_witness :
  let st' := snd (ConvertTokens tf_frame (start [])) in
  Tf.msg_ (Tf.self st') = tf_record /\
  exists k, Tf.calls st' = Tf.calls (start []) ++ Tf.invocations 0 k tf_record.
Proof.
  exact (@TfFacts.ConvertTokens_fields Q StringToDouble World TfData_ctor
           tf_frame (start []) 1%Q 2%Q 3%Q 1%Q 0%Q 0%Q 0%Q
           eq_refl eq_refl eq_refl eq_refl eq_refl eq_refl eq_refl eq_refl).
Defined.

(** The same frame cut to ten tokens: the diagnostic names the count 10,
    the record is [TfData()], and the registered observer is not invoked. *)
Lemma ConvertTokens_field_count_mismatch_witness :
  let st := start [logging "O1"] in
  let st' := snd (ConvertTokens (firstn 10 tf_frame) st) in
  fst (ConvertTokens (firstn 10 tf_frame) st) = Normal tt /\
  Tf.msg_ (Tf.self st') = TfData_ctor /\
  Tf.obs_ (Tf.self st') = Tf.obs_ (Tf.self st) /\
  Tf.cout st' =
    ("Error in parsing TF string with 10 fields! TFs will be empty."
       ++ newline)%string /\
  Tf.calls st' = [] /\
  Tf.world st' = [].
Proof.
  apply (@TfFacts.ConvertTokens_field_count_mismatch
           Q StringToDouble World TfData_ctor
           (firstn 10 tf_frame) (start [logging "O1"])).
  cbn. discriminate.
Defined.

Lemma logging_returns (names : list string) (m : Tf.TfData Q) :
  forall ob, In ob (map logging names) -> forall w, fst (ob m w) = None.
Proof.
  intros ob H w. apply in_map_iff in H. destruct H as (n & <- & _).
  reflexivity.
Qed.

(** Observers O1, O2, O3 registered in that order and returning: the
    invocations are positions 0..k-1 on the decoded record, and the call
    returns, so that k is 3. *)
Lemma ConvertTokens_notifies_in_order_witness :
  let st := start (map logging ["O1"; "O2"; "O3"]) in
  let obs := map logging ["O1"; "O2"; "O3"] in
  let st' := snd (ConvertTokens tf_frame st) in
  exists k delta,
    k <= 3 /\
    Tf.calls st' = [] ++ delta /\
    map fst delta = seq 0 k /\
    (forall p, In p delta -> snd p = tf_record) /\
    (fst (ConvertTokens tf_frame st) = Normal tt ->
     k = 3 /\ Tf.world st' = ["O1"; "O2"; "O3"]) /\
    (forall e,
        fst (ConvertTokens tf_frame st) = Throw e ->
        exists pre ob post,
          obs = pre ++ ob :: post /\
          k = S (length pre) /\
          ob tf_record (Tf.world_after tf_record pre []) =
          (Some e, Tf.world st')) /\
    ((forall ob, In ob obs -> forall w, fst (ob tf_record w) = None) ->
     fst (ConvertTokens tf_frame st) = Normal tt).
Proof.
  exact (@TfFacts.ConvertTokens_notifies_in_order
           Q StringToDouble World TfData_ctor
           tf_frame (start (map logging ["O1"; "O2"; "O3"]))
           1%Q 2%Q 3%Q 1%Q 0%Q 0%Q 0%Q
           eq_refl eq_refl eq_refl eq_refl eq_refl eq_refl eq_refl eq_refl).
Defined.

(** C3 does not hold as stated: on a successful decode with O1, O2, O3
    registered and O1 throwing, O1 alone is invoked; O2 and O3 are not
    invoked at all. *)
Lemma throwing_observer_leaves_others_uninvoked :
  let st := start [failing "O1"; logging "O2"; logging "O3"] in
  let r := ConvertTokens tf_frame st in
  Tf.msg_ (Tf.self (snd r)) = tf_record /\
  fst r = Throw (std_exception "O1") /\
  Tf.calls (snd r) = [(0, tf_record)] /\
  Tf.world (snd r) = ["O1"] /\
  count_occ Nat.eq_dec (map fst (Tf.calls (snd r))) 1 = 0 /\
  count_occ Nat.eq_dec (map fst (Tf.calls (snd r))) 2 = 0.
Proof.
  cbn. now repeat split.
Qed.

(** C2 does not hold as stated: for the frame cut to ten tokens the call
    ends as it does after a decode, with a normal return and no error value,
    and the text it prints holds the actual count 10 and nowhere the
    expected count 12. *)
Lemma field_count_mismatch_is_a_normal_return :
  let short := ConvertTokens (firstn 10 tf_frame) (start [logging "O1"]) in
  let full := ConvertTokens tf_frame (start [logging "O1"]) in
  fst short = Normal tt /\
  fst short = fst full /\
  Tf.cout (snd short) =
    ("Error in parsing TF string with 10 fields! TFs will be empty."
       ++ newline)%string /\
  String.index 0 "10" (Tf.cout (snd short)) = Some 32 /\
  String.index 0 "12" (Tf.cout (snd short)) = None.
Proof.
  cbn. now repeat split.
Qed.

(** C4 does not hold as stated: with O1, O2, O3 registered and O2
    throwing, the exception leaves [ConvertTokens] and O3 is not invoked. *)
Lemma observer_failure_is_not_isolated :
  let st := start [logging "O1"; failing "O2"; logging "O3"] in
  let r := ConvertTokens tf_frame st in
  fst r = Throw (std_exception "O2") /\
  Tf.world (snd r) = ["O1"; "O2"] /\
  map fst (Tf.calls (snd r)) = [0; 1] /\
  ~ In 2 (map fst (Tf.calls (snd r))) /\
  ~ In "O3" (Tf.world (snd r)).
Proof.
  cbn. repeat split; try reflexivity.
  - intros [H|[H|[]]]; discriminate H.
  - intros [H|[H|[]]]; discriminate H.
Qed.

(** The amended C4 on the same observers: O1 and O2 are invoked, the
    exception of O2 comes out, position 2 is not reached. *)
Lemma ConvertTokens_observer_throw_stops_dispatch_witness :
  let st := start [logging "O1"; failing "O2"; logging "O3"] in
  let st' := snd (ConvertTokens tf_frame st) in
  fst (ConvertTokens tf_frame st) = Throw (std_exception "O2") /\
  Tf.world st' = ["O1"; "O2"] /\
  exists delta,
    Tf.calls st' = [] ++ delta /\
    map fst delta = [0; 1] /\
    (forall p, In p delta -> snd p = tf_record) /\
    (forall j, 1 < j -> ~ In j (map fst delta)).
Proof.
  exact (@TfFacts.ConvertTokens_observer_throw_stops_dispatch
           Q StringToDouble World TfData_ctor
           tf_frame (start [logging "O1"; failing "O2"; logging "O3"])
           1%Q 2%Q 3%Q 1%Q 0%Q 0%Q 0%Q
           [logging "O1"] [logging "O3"] (failing "O2") (std_exception "O2")
           eq_refl eq_refl eq_refl eq_refl eq_refl eq_refl eq_refl eq_refl
           eq_refl (logging_returns ["O1"] tf_record) eq_refl).
Defined.

(** C5 does not hold as stated: with the text "abc" in field 8, the
    parser's exception leaves [ConvertTokens], and the retained record is not
    [TfData()]: it holds the frame names and the translation of this frame. *)
Lemma parse_failure_leaves_partial_record :
  let st := start [logging "O1"] in
  let r := ConvertTokens tf_frame_bad st in
  fst r = Throw (std_exception "stod") /\
  Tf.msg_ (Tf.self (snd r)) =
    Tf.mkTfData "FP_POI" "FP_ECEF" (Tf.mkVector3d 1 2 3)%Q
                (Tf.mkQuaterniond 1 0 0 0)%Q /\
  Tf.msg_ (Tf.self (snd r)) <> TfData_ctor.
Proof.
  cbn. repeat split. discriminate.
Qed.

(** The amended C5 on that frame. *)
Lemma ConvertTokens_parse_failure_propagates_witness :
  let st := start [logging "O1"] in
  let st' := snd (ConvertTokens tf_frame_bad st) in
  (exists j e',
      5 <= j <= 11 /\
      StringToDouble (Tf.token tf_frame_bad j) = Throw e' /\
      fst (ConvertTokens tf_frame_bad st) = Throw e') /\
  Tf.frame_id (Tf.msg_ (Tf.self st')) = "FP_POI" /\
  Tf.child_frame_id (Tf.msg_ (Tf.self st')) = "FP_ECEF" /\
  Tf.rotation (Tf.msg_ (Tf.self st')) = Tf.rotation TfData_ctor /\
  Tf.cout st' = "" /\
  Tf.calls st' = [] /\
  Tf.world st' = [].
Proof.
  apply (@TfFacts.ConvertTokens_parse_failure_propagates
           Q StringToDouble World TfData_ctor
           tf_frame_bad (start [logging "O1"]) 8 (std_exception "stod")).
  - reflexivity.
  - lia.
  - reflexivity.
Defined.

Lemma tf_frame_parses :
  length tf_frame = 12 ->
  forall i e, 5 <= i <= 11 -> StringToDouble (Tf.token tf_frame i) <> Throw e.
Proof.
  intros _ i e Hi.
  assert (Hc : i = 5 \/ i = 6 \/ i = 7 \/ i = 8 \/ i = 9 \/ i = 10 \/ i = 11)
    by lia.
  repeat (destruct Hc as [Hc|Hc]; [subst i; discriminate|]).
  subst i; discriminate.
Defined.

(** Decoding the scenario's frame twice in a row: the two retained records
    are equal, both calls return and each invokes the one observer on that
    record. *)
Lemma ConvertTokens_independent_of_prior_state_witness :
  let st := start [logging "O1"] in
  let st1 := snd (ConvertTokens tf_frame st) in
  let st2 := snd (ConvertTokens tf_frame st1) in
  Tf.msg_ (Tf.self st1) = Tf.msg_ (Tf.self st2) /\
  exists k1 k2,
    Tf.calls st1 = [] ++ Tf.invocations 0 k1 tf_record /\
    Tf.calls st2 = Tf.calls st1 ++ Tf.invocations 0 k2 tf_record /\
    (fst (ConvertTokens tf_frame st) = Normal tt -> k1 = 1) /\
    (fst (ConvertTokens tf_frame st1) = Normal tt -> k2 = 1).
Proof.
  vm_cast_no_check
    (@TfFacts.ConvertTokens_independent_of_prior_state
       Q StringToDouble World TfData_ctor tf_frame
       (start [logging "O1"])
       (snd (ConvertTokens tf_frame (start [logging "O1"])))
       tf_frame_parses).
Defined.

(** C6 does not hold as stated: the frame with text in field 8 ends in
    the same exception after either of two earlier frames, yet the record
    the converter retains differs with the earlier frame: its rotation is
    the one of the frame decoded before. *)
Lemma parse_failure_record_depends_on_prior_frame :
  let after_one := ConvertTokens tf_frame_bad (Cases.after tf_frame) in
  let after_half := ConvertTokens tf_frame_bad (Cases.after Cases.tf_frame_half) in
  fst after_one = Throw (std_exception "stod") /\
  fst after_half = Throw (std_exception "stod") /\
  Tf.rotation (Tf.msg_ (Tf.self (snd after_one))) =
    (Tf.mkQuaterniond 1 0 0 0)%Q /\
  Tf.rotation (Tf.msg_ (Tf.self (snd after_half))) =
    (Tf.mkQuaterniond (1 # 2) (1 # 2) (1 # 2) (1 # 2))%Q /\
  Tf.msg_ (Tf.self (snd after_one)) <> Tf.msg_ (Tf.self (snd after_half)).
Proof.
  cbn. repeat split. discriminate.
Qed.

(** The record of the IMU frame is published with yaw 0.0 although the
    stand-in conversion gives yaw 1 for it. *)
Lemma TfObserver_imu_ypr_has_zero_yaw_witness :
  let ros' := snd (Scenario.TfLambda Scenario.imuh_record Scenario.ros0) in
  fst (Scenario.TfLambda Scenario.imuh_record Scenario.ros0) = None /\
  exists new,
    Node.published ros' = [] ++ new /\
    length new <= 1 /\
    (new <> [] <-> "FP_IMUH" = "FP_IMUH" /\ "FP_POI" = "FP_POI") /\
    (forall p m,
        In (p, m) new ->
        p = Node.eul_imu_pub_ /\
        exists v, m = Node.Vector3StampedMsg Scenario.NavSatFix v /\
                  Node.x (Node.vector v) = 0%Q /\
                  Node.y (Node.vector v) = 0%Q /\
                  Node.z (Node.vector v) = 0%Q /\
                  Node.frame_id (Node.header v) = "FP_POI").
Proof.
  apply (@NodeFacts.TfObserver_imu_ypr_has_zero_yaw
           Q 0%Q Scenario.Time Scenario.Transform Scenario.NavSatFix
           Scenario.TfDataToMsg Scenario.QuatToEul
           Scenario.imuh_record Scenario.ros0).
  intros d. split; reflexivity.
Defined.

End Scenarios.

(** ** More on [ConvertTokens] *)

Module TfMore.

Import Tf.

Section Facts.

Variable double : Type.
Variable StringToDouble : string -> result double.
Variable World : Type.
Variable TfData_ctor : TfData double.

Abbreviation TfData := (Tf.TfData double).
Abbreviation TfObserver := (Tf.TfObserver double World).
Abbreviation State := (Tf.State double World).
Abbreviation ConvertTokens :=
  (Tf.ConvertTokens StringToDouble (World := World) TfData_ctor).

(** The loop never reaches more observers than there are. *)
Lemma run_observers_bound (m : TfData) (obs : list TfObserver) :
  forall w, snd (run_observers m obs w) <= length obs.
Proof.
  induction obs as [|ob rest IH]; intros w; cbn; [lia|].
  destruct (ob m w) as [[e|] w1]; cbn; [lia|].
  specialize (IH w1).
  destruct (run_observers m rest w1) as [[r w2] k]; cbn in *. lia.
Qed.

(** An exception that stopped the loop was thrown by one of the
    observers. *)
Lemma run_observers_thrower (m : TfData) (obs : list TfObserver) (e : exception) :
  forall w w' k,
    run_observers m obs w = (Some e, w', k) ->
    exists ob w0, In ob obs /\ fst (ob m w0) = Some e.
Proof.
  induction obs as [|ob rest IH]; intros w w' k H; cbn in H.
  - discriminate H.
  - destruct (ob m w) as [[e1|] w1] eqn:E.
    + inversion H; subst. exists ob, w. split; [now left|]. now rewrite E.
    + destruct (run_observers m rest w1) as [[r w2] k'] eqn:E'.
      inversion H; subst.
      destruct (IH _ _ _ E') as (ob' & w0 & Hin & Hob).
      exists ob', w0. split; [now right|assumption].
Qed.

(** The bounds checks of [tokens.at(i)] never fire: an exception that
    leaves [ConvertTokens] was thrown by the parser on one of the numeric
    fields of a twelve-token frame, or by a registered observer on the
    decoded record. *)
Theorem ConvertTokens_throw_origin (tokens : list string) (st : State)
        (e : exception) :
  fst (ConvertTokens tokens st) = Throw e ->
  length tokens = 12 /\
  ((exists j, 5 <= j <= 11 /\ StringToDouble (token tokens j) = Throw e) \/
   (exists ob w,
       In ob (obs_ (self st)) /\
       fst (ob (msg_ (self (snd (ConvertTokens tokens st)))) w) = Some e)).
Proof.
  intros Hthrow.
  destruct (Nat.eq_dec (length tokens) 12) as [H|H].
  2: { rewrite TfFacts.ConvertTokens_rejected in Hthrow by assumption.
       discriminate Hthrow. }
  split; [assumption|].
  destruct (TfFacts.numeric_fields_cases StringToDouble tokens)
    as [(tx & ty & tz & ow & ox & oy & oz & Htx & Hty & Htz & How & Hox
         & Hoy & Hoz) | (i & e0 & Hi & He)].
  - right.
    rewrite (@TfFacts.ConvertTokens_decoded _ StringToDouble World TfData_ctor
               tokens st tx ty tz ow ox oy oz) in * by assumption.
    rewrite TfFacts.process_observers_run in *.
    cbn [with_msg self msg_ obs_ world cout calls] in *.
    destruct (run_observers _ (obs_ (self st)) (world st))
      as [[r w'] k] eqn:E.
    cbn [fst snd self msg_] in *.
    destruct r as [e1|]; [|discriminate Hthrow].
    inversion Hthrow; subst e1.
    eapply run_observers_thrower; eassumption.
  - left.
    destruct (@TfFacts.ConvertTokens_parse_throw _ StringToDouble World
                TfData_ctor tokens st i e0 H Hi He)
      as (j & e' & t & q & Hj & Hje & Hrun & _).
    rewrite Hrun in Hthrow. inversion Hthrow; subst e'.
    exists j. split; [exact Hj|exact Hje].
Qed.

(** Whatever the frame and however the call ends, [ConvertTokens] leaves
    the list of observers as it was and adds to the history only
    invocations of positions 0, 1, ..., k-1 (with k at most the number of
    observers), all of them on the record it retains. *)
Theorem ConvertTokens_keeps_observers (tokens : list string) (st : State) :
  let st' := snd (ConvertTokens tokens st) in
  obs_ (self st') = obs_ (self st) /\
  exists k,
    k <= length (obs_ (self st)) /\
    calls st' = calls st ++ invocations 0 k (msg_ (self st')).
Proof.
  intros st'. subst st'.
  destruct (Nat.eq_dec (length tokens) 12) as [H|H].
  2: { rewrite TfFacts.ConvertTokens_rejected by assumption.
       cbn. split; [reflexivity|]. exists 0. split; [lia|].
       cbn. now rewrite app_nil_r. }
  destruct (TfFacts.numeric_fields_cases StringToDouble tokens)
    as [(tx & ty & tz & ow & ox & oy & oz & Htx & Hty & Htz & How & Hox
         & Hoy & Hoz) | (i & e0 & Hi & He)].
  - rewrite (@TfFacts.ConvertTokens_decoded _ StringToDouble World TfData_ctor
               tokens st tx ty tz ow ox oy oz) by assumption.
    rewrite TfFacts.process_observers_run.
    cbn [with_msg self msg_ obs_ world cout calls].
    pose proof (run_observers_bound
                  (mkTfData ("FP_" ++ token tokens from_frame_idx)
                            ("FP_" ++ token tokens to_frame_idx)
                            (mkVector3d tx ty tz) (mkQuaterniond ow ox oy oz))
                  (obs_ (self st)) (world st)) as Hb.
    destruct (run_observers _ (obs_ (self st)) (world st)) as [[r w'] k].
    cbn [fst snd self msg_ obs_ calls] in *.
    split; [reflexivity|]. exists k. now split.
  - destruct (@TfFacts.ConvertTokens_parse_throw _ StringToDouble World
                TfData_ctor tokens st i e0 H Hi He)
      as (j & e' & t & q & Hj & Hje & Hrun & _).
    rewrite Hrun. cbn [snd with_msg self obs_ calls].
    split; [reflexivity|]. exists 0. split; [lia|].
    cbn. now rewrite app_nil_r.
Qed.

Lemma append_length (a b : string) :
  String.length (a ++ b) = String.length a + String.length b.
Proof. induction a as [|c a IH]; cbn; [reflexivity|now rewrite IH]. Qed.

(** [ConvertTokens] writes to [std::cout] exactly when the frame does not
    have twelve tokens: a frame of twelve tokens prints nothing, also when a
    field does not parse or an observer throws. *)
Theorem ConvertTokens_prints_iff_wrong_count (tokens : list string) (st : State) :
  cout (snd (ConvertTokens tokens st)) = cout st <-> length tokens = 12.
Proof.
  destruct (Nat.eq_dec (length tokens) 12) as [H|H].
  - split; [intros _; exact H|intros _].
    destruct (TfFacts.numeric_fields_cases StringToDouble tokens)
      as [(tx & ty & tz & ow & ox & oy & oz & Htx & Hty & Htz & How & Hox
           & Hoy & Hoz) | (i & e0 & Hi & He)].
    + rewrite (@TfFacts.ConvertTokens_decoded _ StringToDouble World
                 TfData_ctor tokens st tx ty tz ow ox oy oz) by assumption.
      rewrite TfFacts.process_observers_run.
      cbn [with_msg self msg_ obs_ world cout calls].
      now destruct (run_observers _ (obs_ (self st)) (world st)) as [[r w'] k].
    + destruct (@TfFacts.ConvertTokens_parse_throw _ StringToDouble World
                  TfData_ctor tokens st i e0 H Hi He)
        as (j & e' & t & q & Hj & Hje & Hrun & _).
      now rewrite Hrun.
  - split; [|intros E; contradiction].
    rewrite TfFacts.ConvertTokens_rejected by assumption.
    cbn [snd cout]. intros E. exfalso.
    apply (f_equal String.length) in E.
    rewrite !append_length in E. cbn in E. lia.
Qed.

(** After a parse failure the retained record mixes two frames: it has the
    frame names of the failing frame and the rotation held before the call;
    its translation is the one of the failing frame when fields 5, 6, 7
    parse (the failure is in the rotation), and the one held before the call
    when one of them does not. *)
Theorem ConvertTokens_parse_failure_mixes_frames
        (tokens : list string) (st : State) (i : nat) (e : exception) :
  length tokens = 12 ->
  5 <= i <= 11 ->
  StringToDouble (token tokens i) = Throw e ->
  let old := msg_ (self st) in
  let st' := snd (ConvertTokens tokens st) in
  (forall tx ty tz,
      StringToDouble (token tokens 5) = Normal tx ->
      StringToDouble (token tokens 6) = Normal ty ->
      StringToDouble (token tokens 7) = Normal tz ->
      msg_ (self st') =
      mkTfData ("FP_" ++ token tokens 3) ("FP_" ++ token tokens 4)
               (mkVector3d tx ty tz) (rotation old)) /\
  (forall j e',
      5 <= j <= 7 ->
      StringToDouble (token tokens j) = Throw e' ->
      msg_ (self st') =
      mkTfData ("FP_" ++ token tokens 3) ("FP_" ++ token tokens 4)
               (translation old) (rotation old)).
Proof.
  intros H Hi He old st'. subst old st'.
  do 12 (destruct tokens as [|? tokens]; [discriminate H|]).
  destruct tokens; [clear H|discriminate H].
  unfold Tf.ConvertTokens, Vector3ToEigen, Vector4ToEigen.
  cbn [length Nat.eqb negb token nth].
  unfold bind, at_, lift, set_msg, modify, gets, ret, throw,
    translation_x_idx, translation_y_idx, translation_z_idx,
    orientation_w_idx, orientation_x_idx, orientation_y_idx,
    orientation_z_idx, from_frame_idx, to_frame_idx.
  cbn [nth_error].
  assert (Hc : i = 5 \/ i = 6 \/ i = 7 \/ i = 8 \/ i = 9 \/ i = 10 \/ i = 11)
    by lia.
  clear Hi.
  split.
  - intros tx ty tz Htx Hty Htz. rewrite Htx, Hty, Htz.
    repeat match goal with
           | |- context [match StringToDouble ?t with _ => _ end] =>
               let E := fresh "E" in
               destruct (StringToDouble t) eqn:E
           end;
      try reflexivity.
    exfalso.
    repeat (destruct Hc as [Hc|Hc]; [subst i; cbn in He; congruence|]).
    subst i; cbn in He; congruence.
  - intros j e' Hj Hje.
    assert (Hj' : j = 5 \/ j = 6 \/ j = 7) by lia. clear Hj.
    repeat match goal with
           | |- context [match StringToDouble ?t with _ => _ end] =>
               let E := fresh "E" in
               destruct (StringToDouble t) eqn:E
           end;
      try reflexivity.
    all: exfalso;
      repeat (destruct Hj' as [Hj'|Hj']; [subst j; cbn in Hje; congruence|]);
      subst j; cbn in Hje; congruence.
Qed.

End Facts.

End TfMore.

(** ** More on the driver node *)

Module NodeMore.

Import Node.
Import Trace.

(** *** The reconnect delay *)

Lemma Qfloor_nonneg (d : Q) : (0 <= d)%Q -> (0 <= Qfloor d)%Z.
Proof.
  intros Hd. destruct d as [n p]. unfold Qle in Hd. cbn in *.
  apply Z.div_pos; lia.
Qed.

(** For a non-negative configured delay below 9223372037 s, the delay
    slept is the whole seconds of the configured value: it never exceeds
    the configured delay, falls short of it by less than one second, and
    equals it exactly when the configured value is a whole number. *)
Theorem reconnect_delay_is_whole_seconds (d : Q) :
  (0 <= d)%Q -> (Qfloor d <= 9223372036)%Z ->
  exists ns,
    reconnect_delay_ns d = Some ns /\
    ns = (Qfloor d * 1000000000)%Z /\
    (inject_Z ns <= seconds_to_ns d)%Q /\
    (seconds_to_ns d < inject_Z ns + 1000000000)%Q /\
    ((inject_Z ns == seconds_to_ns d)%Q <-> (d == inject_Z (Qfloor d))%Q).
Proof.
  intros Hd Hf.
  exists (Qfloor d * 1000000000)%Z.
  split; [now apply NodeFacts.reconnect_delay_ns_whole_seconds|].
  split; [reflexivity|].
  pose proof (Qfloor_le d) as Hle.
  pose proof (Qlt_floor d) as Hlt.
  unfold seconds_to_ns.
  rewrite inject_Z_mult.
  rewrite inject_Z_plus in Hlt.
  assert (Hpos : (0 < inject_Z 1000000000)%Q) by reflexivity.
  change (1000000000 : Q) with (inject_Z 1000000000).
  split; [now apply Qmult_le_compat_r; [|apply Qlt_le_weak]|].
  split.
  - apply Qlt_le_trans
      with ((inject_Z (Qfloor d) + inject_Z 1) * inject_Z 1000000000)%Q.
    + now apply Qmult_lt_compat_r.
    + rewrite Qmult_plus_distr_l. apply Qplus_le_r.
      rewrite Qmult_1_l. apply Qle_refl.
  - split; intros E.
    + symmetry. apply Qmult_inj_r in E; [exact E|].
      intros Hz. rewrite Hz in Hpos. discriminate.
    + now rewrite <- E.
Qed.

(** From 9223372037 s on the product no longer fits the signed
    nanosecond count: up to 18446744073 s the delay handed to [sleep_for]
    is negative. *)
Theorem reconnect_delay_wraps_negative (d : Q) :
  (0 <= d)%Q ->
  (9223372037 <= Qfloor d <= 18446744073)%Z ->
  exists ns,
    reconnect_delay_ns d = Some ns /\
    ns = (Qfloor d * 1000000000 - 2 ^ 64)%Z /\
    (ns < 0)%Z.
Proof.
  intros Hd Hf.
  exists (Qfloor d * 1000000000 - 2 ^ 64)%Z.
  split; [|split; [reflexivity|]].
  - unfold reconnect_delay_ns.
    rewrite NodeFacts.double_to_uint64_floor by (try assumption; lia).
    f_equal. unfold mul_uint64, uint64_to_int64.
    change (2 ^ 64)%Z with 18446744073709551616%Z.
    change (2 ^ 63)%Z with 9223372036854775808%Z.
    rewrite (Z.mod_small (Qfloor d * 1000)) by lia.
    rewrite (Z.mod_small (Qfloor d * 1000 * 1000)) by lia.
    rewrite (Z.mod_small (Qfloor d * 1000 * 1000 * 1000)) by lia.
    destruct (Z.ltb_spec (Qfloor d * 1000 * 1000 * 1000) 9223372036854775808);
      lia.
  - change (2 ^ 64)%Z with 18446744073709551616%Z. lia.
Qed.

(** The cast of the configured delay is undefined exactly for delays of
    -1 s or less and of 2^64 s or more; a delay between -1 and 0 is slept
    as 0. *)
Theorem reconnect_delay_undefined_iff (d : Q) :
  (reconnect_delay_ns d = None <->
   (d <= - (1))%Q \/ (inject_Z (2 ^ 64) <= d)%Q) /\
  ((- (1) < d)%Q -> (d < 0)%Q -> reconnect_delay_ns d = Some 0%Z).
Proof.
  destruct d as [n p].
  unfold reconnect_delay_ns, double_to_uint64, Qle, Qlt. cbn [Qnum Qden].
  change (2 ^ 64)%Z with 18446744073709551616%Z.
  cbn [inject_Z Qopp Qnum Qden].
  assert (Hp : (0 < Z.pos p)%Z) by lia.
  destruct (Z.le_gt_cases 0 n) as [Hn|Hn].
  - rewrite Z.quot_div_nonneg by lia.
    pose proof (Z.div_pos n (Z.pos p) Hn Hp) as H0.
    destruct (Z.leb_spec 0 (n / Z.pos p)); [|lia]. cbn [andb].
    split; [|intros; lia].
    destruct (Z.ltb_spec (n / Z.pos p) 18446744073709551616) as [Hlt|Hge].
    + split; [discriminate|]. intros [Hneg|Hbig]; [lia|].
      exfalso.
      assert (18446744073709551616 <= n / Z.pos p)%Z
        by (apply Z.div_le_lower_bound; lia).
      lia.
    + split; [intros _; right|reflexivity].
      pose proof (Z.mul_div_le n (Z.pos p) Hp). nia.
  - assert (Hq : Z.quot n (Z.pos p) = (- ((- n) / Z.pos p))%Z).
    { rewrite <- (Z.opp_involutive n) at 1. rewrite Z.quot_opp_l by lia.
      now rewrite Z.quot_div_nonneg by lia. }
    rewrite Hq.
    pose proof (Z.div_pos (- n) (Z.pos p) ltac:(lia) Hp) as H0.
    destruct (Z.lt_ge_cases (- n) (Z.pos p)) as [Hs|Hs].
    + rewrite Z.div_small by lia. cbn.
      split; [split; [discriminate|intros [H|H]; lia]|reflexivity].
    + assert (H1 : (1 <= (- n) / Z.pos p)%Z).
      { apply Z.div_le_lower_bound; lia. }
      destruct (Z.leb_spec 0 (- ((- n) / Z.pos p))); [lia|]. cbn [andb].
      split; [split; [intros _; left; lia|reflexivity]|intros; lia].
Qed.

(** *** The run loop *)

Section RunLoopMore.

Variable Driver : Type.
Variable rclcpp_ok : Driver -> bool.
Variable RunOnce : Driver -> bool * Driver.
Variable spin_some : Driver -> Driver.
Variable sleep_for : Z -> Driver -> Driver.
Variable Connect : Driver -> Driver.
Variable rate_sleep : Driver -> Driver.
Variable seconds : Q.
Variable delay : Z.

Abbreviation body :=
  (Run_body RunOnce spin_some sleep_for Connect rate_sleep seconds delay).
Abbreviation loop :=
  (fun fuel =>
     Run_loop rclcpp_ok RunOnce spin_some sleep_for Connect rate_sleep
              fuel seconds delay).
Abbreviation turns :=
  (fun k =>
     after_turns RunOnce spin_some sleep_for Connect rate_sleep k seconds delay).

Lemma Run_loop_stops_from (n : nat) :
  forall fuel d tr,
    n < fuel ->
    (forall k, k < n -> rclcpp_ok (turns k d) = true) ->
    rclcpp_ok (turns n d) = false ->
    exists tr',
      loop fuel d tr = Exited (turns n d) (tr ++ tr') /\
      length (filter is_RunOnce tr') = n.
Proof.
  induction n as [|n IH]; intros fuel d tr Hfuel Hok Hstop.
  - destruct fuel as [|fuel]; [lia|]. cbn in *. rewrite Hstop.
    exists []. now rewrite app_nil_r.
  - destruct fuel as [|fuel]; [lia|].
    cbn [Run_loop after_turns] in *.
    pose proof (Hok 0 (Nat.lt_0_succ n)) as Hok0. cbn in Hok0. rewrite Hok0.
    pose proof (NodeFacts.Run_body_one_RunOnce
                  RunOnce spin_some sleep_for Connect rate_sleep seconds delay d)
      as Hone.
    destruct (body d) as [d1 acts] eqn:Hb. cbn [fst snd] in *.
    destruct (IH fuel d1 (tr ++ acts)) as (tr' & Hrun & Hlen);
      [lia| |assumption|].
    { intros k Hk. specialize (Hok (S k)). cbn [after_turns] in Hok.
      rewrite Hb in Hok. apply Hok. lia. }
    exists (acts ++ tr'). rewrite Hrun, app_assoc. split; [reflexivity|].
    rewrite filter_app, length_app. lia.
Qed.

(** When [rclcpp::ok()] holds before each of the first n turns and fails
    before the next, the loop ends there for every bound above n: it has
    run exactly n cycles and starts no other. *)
Theorem Run_loop_stops_when_not_ok (n fuel : nat) (d : Driver) :
  n < fuel ->
  (forall k, k < n -> rclcpp_ok (turns k d) = true) ->
  rclcpp_ok (turns n d) = false ->
  exists tr,
    loop fuel d [] = Exited (turns n d) tr /\
    count is_RunOnce tr = n.
Proof.
  intros Hfuel Hok Hstop.
  destruct (@Run_loop_stops_from n fuel d [] Hfuel Hok Hstop)
    as (tr & Hrun & Hlen).
  exists tr. now split.
Qed.

End RunLoopMore.

(** *** From a TF frame to the IMU yaw-pitch-roll topic *)

Section TfPipeline.

Variable double : Type.
Variable zero : double.
Variable Time : Type.
Variable Transform : Type.
Variable NavSatFix : Type.
Variable TfDataToMsg : Tf.TfData double -> TransformStamped Time Transform.
Variable QuatToEul : Tf.Quaterniond double -> Tf.Vector3d double.
Variable StringToDouble : string -> result double.
Variable TfData_ctor : Tf.TfData double.

Abbreviation Ros := (Node.Ros double Time NavSatFix).
Abbreviation TfLambda :=
  (TfObserverLambda zero (NavSatFix := NavSatFix) TfDataToMsg QuatToEul).
Abbreviation ConvertTokens :=
  (Tf.ConvertTokens StringToDouble (World := Ros) TfData_ctor).

Lemma FP_prefix_eqb (a b : string) :
  (("FP_" ++ a)%string =? ("FP_" ++ b)%string) = (a =? b).
Proof. reflexivity. Qed.

(** With the TF observer as the only observer of the converter and a
    [TfDataToMsg] that carries the frame names, a frame of twelve tokens
    with numeric fields ends on the IMU yaw-pitch-roll publisher exactly when
    its token 3 is "POI" and its token 4 is "IMUH"; the vector published has
    x = 0.0 and the y and z that [QuatToEul] gives for the rotation parsed
    from tokens 8..11. *)
Theorem TF_frame_reaches_imu_ypr (tokens : list string)
        (st : Tf.State double Ros) (tx ty tz ow ox oy oz : double) :
  length tokens = 12 ->
  StringToDouble (Tf.token tokens 5) = Normal tx ->
  StringToDouble (Tf.token tokens 6) = Normal ty ->
  StringToDouble (Tf.token tokens 7) = Normal tz ->
  StringToDouble (Tf.token tokens 8) = Normal ow ->
  StringToDouble (Tf.token tokens 9) = Normal ox ->
  StringToDouble (Tf.token tokens 10) = Normal oy ->
  StringToDouble (Tf.token tokens 11) = Normal oz ->
  (forall d, child_frame_id (TfDataToMsg d) = Tf.child_frame_id d /\
             frame_id (tf_header (TfDataToMsg d)) = Tf.frame_id d) ->
  Tf.obs_ (Tf.self st) = [TfLambda] ->
  let st' := snd (ConvertTokens tokens st) in
  let e := QuatToEul (Tf.mkQuaterniond ow ox oy oz) in
  fst (ConvertTokens tokens st) = Normal tt /\
  exists new,
    published (Tf.world st') = published (Tf.world st) ++ new /\
    length new <= 1 /\
    (new <> [] <->
     Tf.token tokens 3 = "POI" /\ Tf.token tokens 4 = "IMUH") /\
    (forall p m,
        In (p, m) new ->
        p = eul_imu_pub_ /\
        exists v, m = Vector3StampedMsg NavSatFix v /\
                  vector v = mkVector3 zero (Tf.y e) (Tf.z e)).
Proof.
  intros H Htx Hty Htz How Hox Hoy Hoz Hids Hobs st' e. subst st' e.
  rewrite (@TfFacts.ConvertTokens_decoded _ StringToDouble Ros TfData_ctor
             tokens st tx ty tz ow ox oy oz) by assumption.
  rewrite TfFacts.process_observers_run.
  cbn [Tf.with_msg Tf.self Tf.msg_ Tf.obs_ Tf.world Tf.cout Tf.calls].
  rewrite Hobs. cbn [Tf.run_observers].
  rewrite NodeFacts.TfLambda_run.
  cbn [fst snd Tf.outcome Tf.world published].
  match goal with
  | |- context [TfDataToMsg ?r] => destruct (Hids r) as [Hc Hf]; rewrite Hc, Hf
  end.
  cbn [Tf.child_frame_id Tf.frame_id Tf.rotation Tf.from_frame_idx
       Tf.to_frame_idx].
  change "FP_IMUH" with ("FP_" ++ "IMUH")%string.
  change "FP_POI" with ("FP_" ++ "POI")%string at 1.
  rewrite !FP_prefix_eqb. clear Hc Hf.
  unfold Tf.from_frame_idx, Tf.to_frame_idx.
  split; [reflexivity|].
  eexists; split; [reflexivity|].
  destruct (String.eqb_spec (Tf.token tokens 4) "IMUH") as [E4|E4];
    destruct (String.eqb_spec (Tf.token tokens 3) "POI") as [E3|E3];
    cbn [andb length In].
  2-4: repeat split; try lia; try tauto; intros; tauto.
  split; [lia|]. split; [split; [tauto|discriminate]|].
  intros p m [Hin|[]]. inversion Hin; subst p m; clear Hin.
  split; [reflexivity|]. eexists. split; reflexivity.
Qed.

End TfPipeline.

End NodeMore.

(** ** [RegisterObservers] *)

Module RegistryFacts.

Import Registry.

Section Facts.

Variable double : Type.
Variable World : Type.
Variable OdometryObserver : Type.
Variable LlhObserver : Type.
Variable ImuObserver : Type.
Variable BestGnssPosObserver : Type.
Variable bestgnsspos_observer : BestGnssPosObserver.
Variable odometry_lambda : OdometryObserver.
Variable llh_lambda : LlhObserver.
Variable rawimu_lambda : ImuObserver.
Variable corrimu_lambda : ImuObserver.
Variable tf_lambda : Tf.TfObserver double World.

Abbreviation Converters :=
  (Registry.Converters double World OdometryObserver LlhObserver ImuObserver).
Abbreviation Driver :=
  (Registry.Driver double World OdometryObserver LlhObserver ImuObserver
                   BestGnssPosObserver).
Abbreviation register_format :=
  (Registry.register_format odometry_lambda llh_lambda rawimu_lambda
                            corrimu_lambda tf_lambda).
Abbreviation register_formats :=
  (Registry.register_formats odometry_lambda llh_lambda rawimu_lambda
                             corrimu_lambda tf_lambda).
Abbreviation RegisterObservers :=
  (Registry.RegisterObservers bestgnsspos_observer odometry_lambda llh_lambda
                              rawimu_lambda corrimu_lambda tf_lambda).

(** Splits on which of the five format names [format] is. *)
Ltac by_format format :=
  destruct (String.eqb_spec format "ODOMETRY") as [?|?];
  [subst format|
   destruct (String.eqb_spec format "LLH") as [?|?];
   [subst format|
    destruct (String.eqb_spec format "RAWIMU") as [?|?];
    [subst format|
     destruct (String.eqb_spec format "CORRIMU") as [?|?];
     [subst format|
      destruct (String.eqb_spec format "TF") as [?|?];
      [subst format|]]]]].

(** Unfolds one step of the registration at a pointer [m key]. *)
Ltac step m key :=
  unfold add_odometry_observer, add_llh_observer, add_imu_observer,
    add_tf_observer, index;
  destruct (m key) as [[[?|?|?|?]|]|] eqn:?; cbn;
  repeat match goal with
         | H : m key = _ |- context [m key] => rewrite H; cbn
         end.

Lemma register_format_other (format : string) (m : Converters) :
  known_format format = false -> register_format format m = Some m.
Proof.
  unfold known_format, unguarded, Registry.register_format.
  by_format format; cbn; try discriminate.
  repeat match goal with
         | H : ?a <> ?b |- _ =>
             apply String.eqb_neq in H; rewrite H; clear H
         end.
  reflexivity.
Qed.

(** A format without a branch of its own leaves everything as it is. *)
Lemma register_formats_other (formats : list string) (m : Converters) :
  (forall f, In f formats -> known_format f = false) ->
  register_formats formats m = Some m.
Proof.
  induction formats as [|f rest IH]; intros Hf; [reflexivity|].
  cbn. rewrite register_format_other by (apply Hf; now left).
  apply IH. intros g Hg. apply Hf. now right.
Qed.

(** A successful registration step keeps, under every key, what class of
    converter (or none) is stored there. *)
Lemma register_format_keeps_classes (format : string) (m m' : Converters) :
  register_format format m = Some m' ->
  (forall k, holds_its_class m' k = holds_its_class m k) /\
  llh_ok m' = llh_ok m.
Proof.
  unfold Registry.register_format.
  by_format format; cbn.
  6: { repeat match goal with
              | H : ?a <> ?b |- _ =>
                  apply String.eqb_neq in H; rewrite H; clear H
              end.
       intros E; inversion E; subst. now split. }
  all: match goal with
       | |- context [add_odometry_observer ?k _ ?m0] => step m0 k
       | |- context [index ?k ?m0] => step m0 k
       | |- context [add_imu_observer ?k _ ?m0] => step m0 k
       | |- context [add_tf_observer ?k _ ?m0] => step m0 k
       end.
  all: try discriminate.
  all: intros E; injection E as <-.
  all: split;
    [intros k; unfold holds_its_class, store;
     try match goal with
         | |- context [String.eqb k ?key] =>
             destruct (String.eqb_spec k key) as [->|Hk]
         end;
     try match goal with H : _ _ = Some _ |- _ => rewrite H end;
     try match goal with H : _ _ = None |- _ => rewrite H end; reflexivity
    |unfold llh_ok, store; cbn;
     try match goal with H : _ _ = Some _ |- _ => rewrite H end;
     try match goal with H : _ _ = None |- _ => rewrite H end; reflexivity].
Qed.

(** A registration step is defined exactly when the pointer it calls
    through is a converter of the class it casts to. *)
Lemma register_format_defined_iff (format : string) (m : Converters) :
  register_format format m <> None <->
  (unguarded format = true -> holds_its_class m format = true) /\
  (format = "LLH" -> llh_ok m = true).
Proof.
  unfold Registry.register_format, unguarded, holds_its_class, llh_ok.
  by_format format; cbn.
  6: { repeat match goal with
              | H : ?a <> ?b |- _ =>
                  apply String.eqb_neq in H; rewrite H
              end.
       cbn. split; [intros _; split; [discriminate|]|discriminate].
       intros Hf. congruence. }
  all: match goal with
       | |- context [add_odometry_observer ?k _ ?m0] => step m0 k
       | |- context [index ?k ?m0] => step m0 k
       | |- context [add_imu_observer ?k _ ?m0] => step m0 k
       | |- context [add_tf_observer ?k _ ?m0] => step m0 k
       end.
  all: split;
    [intros Hd; split; intros; try reflexivity; try discriminate;
     exfalso; now apply Hd
    |intros [H1 H2]; try discriminate;
     try (specialize (H1 eq_refl); discriminate H1);
     try (specialize (H2 eq_refl); discriminate H2)].
Qed.

Lemma register_formats_defined_iff (formats : list string) :
  forall m : Converters,
    register_formats formats m <> None <->
    (forall f, In f formats ->
               (unguarded f = true -> holds_its_class m f = true) /\
               (f = "LLH" -> llh_ok m = true)).
Proof.
  induction formats as [|f rest IH]; intros m.
  - cbn. split; [intros _ g []|discriminate].
  - cbn [Registry.register_formats].
    destruct (register_format f m) as [m'|] eqn:E.
    + destruct (register_format_keeps_classes _ _ E) as [Hk Hl].
      rewrite IH. split.
      * intros H g [<-|Hg].
        -- apply register_format_defined_iff. rewrite E. discriminate.
        -- destruct (H g Hg) as [H1 H2]. rewrite Hk, Hl in *. now split.
      * intros H g Hg. rewrite Hk, Hl. apply H. now right.
    + split; [intros H; now contradiction H|].
      intros H. exfalso.
      apply (proj2 (register_format_defined_iff f m)); [|exact E].
      apply H. now left.
Qed.

(** [RegisterObservers] is free of calls through a null pointer exactly
    when, for every configured format, the map holds a converter of the
    class the branch casts to: under "ODOMETRY", "RAWIMU", "CORRIMU" and
    "TF" such a converter must be present; under "LLH" the pointer may also
    be missing or null, in which case the format is skipped. *)
Theorem RegisterObservers_defined_iff (formats : list string) (d : Driver) :
  RegisterObservers formats d <> None <->
  (forall f, In f formats ->
             (unguarded f = true ->
              holds_its_class (a_converters_ d) f = true) /\
             (f = "LLH" -> llh_ok (a_converters_ d) = true)).
Proof.
  rewrite <- register_formats_defined_iff.
  unfold Registry.RegisterObservers.
  destruct (register_formats formats (a_converters_ d));
    split; intros H; try discriminate; try assumption; now contradiction H.
Qed.

(** Formats without a branch of their own are ignored: with only such
    formats configured, [RegisterObservers] adds the BestGnssPos observer
    and leaves the converters as they are. *)
Theorem RegisterObservers_ignores_other_formats
        (formats : list string) (d : Driver) :
  (forall f, In f formats -> known_format f = false) ->
  RegisterObservers formats d =
  Some (mkDriver (a_converters_ d)
                 (bestgnsspos_obs_ d ++ [bestgnsspos_observer])).
Proof.
  intros H. unfold Registry.RegisterObservers.
  now rewrite register_formats_other.
Qed.

Lemma register_format_tf (format : string) (m m' : Converters)
      (c : Tf.TfConverter double World) :
  register_format format m = Some m' ->
  m "TF" = Some (Some (TfConverter _ _ _ c)) ->
  m' "TF" =
  Some (Some (TfConverter _ _ _
                (Tf.mkTfConverter
                   (Tf.msg_ c)
                   (Tf.obs_ c ++ if format =? "TF" then [tf_lambda] else [])))).
Proof.
  intros E Hc. revert E.
  unfold Registry.register_format.
  by_format format; cbn.
  6: { repeat match goal with
              | H : ?a <> ?b |- _ =>
                  apply String.eqb_neq in H; rewrite H
              end.
       intros E; injection E as <-. rewrite Hc, app_nil_r.
       now destruct c. }
  all: match goal with
       | |- context [add_odometry_observer ?k _ ?m0] => step m0 k
       | |- context [index ?k ?m0] => step m0 k
       | |- context [add_imu_observer ?k _ ?m0] => step m0 k
       | |- context [add_tf_observer ?k _ ?m0] => step m0 k
       end.
  all: try discriminate.
  all: intros E; injection E as <-; unfold store; cbn;
    try rewrite Hc; try rewrite app_nil_r; try (now destruct c).
  all: try congruence.
  injection Hc as ->. reflexivity.
Qed.

Lemma register_formats_tf (formats : list string) :
  forall (m m' : Converters) (c : Tf.TfConverter double World),
    register_formats formats m = Some m' ->
    m "TF" = Some (Some (TfConverter _ _ _ c)) ->
    m' "TF" =
    Some (Some (TfConverter _ _ _
                  (Tf.mkTfConverter
                     (Tf.msg_ c)
                     (Tf.obs_ c ++
                        repeat tf_lambda
                               (count_occ string_dec formats "TF"))))).
Proof.
  induction formats as [|f rest IH]; intros m m' c E Hc.
  - cbn in *. injection E as <-. rewrite Hc, app_nil_r. now destruct c.
  - cbn [Registry.register_formats] in E.
    destruct (register_format f m) as [m1|] eqn:E1; [|discriminate E].
    pose proof (register_format_tf _ _ E1 Hc) as H1.
    rewrite (IH _ _ _ E H1). cbn [Tf.msg_ Tf.obs_ count_occ].
    destruct (string_dec f "TF") as [->|Hne].
    + cbn. now rewrite <- app_assoc.
    + apply String.eqb_neq in Hne. rewrite Hne. now rewrite app_nil_r.
Qed.

(** Registration does not de-duplicate: after [RegisterObservers], the TF
    converter holds its earlier observers followed by one copy of the TF
    lambda for every occurrence of "TF" in the configured formats, its
    record is untouched, and the BestGnssPos observer was added once. *)
Theorem RegisterObservers_adds_TF_lambda_per_occurrence
        (formats : list string) (d d' : Driver)
        (c : Tf.TfConverter double World) :
  RegisterObservers formats d = Some d' ->
  a_converters_ d "TF" = Some (Some (TfConverter _ _ _ c)) ->
  a_converters_ d' "TF" =
  Some (Some (TfConverter _ _ _
                (Tf.mkTfConverter
                   (Tf.msg_ c)
                   (Tf.obs_ c ++
                      repeat tf_lambda
                             (count_occ string_dec formats "TF"))))) /\
  bestgnsspos_obs_ d' = bestgnsspos_obs_ d ++ [bestgnsspos_observer].
Proof.
  unfold Registry.RegisterObservers. intros E Hc.
  destruct (register_formats formats (a_converters_ d)) as [m|] eqn:Em;
    [|discriminate E].
  injection E as <-. cbn [a_converters_ bestgnsspos_obs_].
  split; [|reflexivity].
  eapply register_formats_tf; eassumption.
Qed.

End Facts.

End RegistryFacts.

(** ** The ODOMETRY observer *)

Module ObserversFacts.

Import Node.
Import Observers.

Section Facts.

Variable double : Type.
Variable rmse_0_0017 : double.
Variable Time : Type.
Variable GpsTime : Type.
Variable QuaternionMsg : Type.
Variable OdometryRest : Type.
Variable Imu : Type.
Variable VRTK : Type.
Variable NavSatFix : Type.
Variable OdometryFields : Type.
Variable VrtkFields : Type.
Variable ImuData : Type.
Variable Transform : Type.
Variable OdometryDataToMsg :
  OdometryData GpsTime OdometryFields -> Odometry Time QuaternionMsg OdometryRest.
Variable VrtkDataToMsg : VrtkData VrtkFields -> VRTK.
Variable ImuDataToMsg : ImuData -> Imu.
Variable TfDataToMsg : Tf.TfData double -> TransformStamped Time Transform.
Variable GpsTimeToMsgTime : GpsTime -> Time.

Abbreviation Msgs := (Observers.Msgs double GpsTime OdometryFields VrtkFields ImuData).
Abbreviation Bus :=
  (Observers.Bus double Time QuaternionMsg OdometryRest Imu VRTK NavSatFix).
Abbreviation BusMessage :=
  (Observers.BusMessage double Time QuaternionMsg OdometryRest Imu VRTK NavSatFix).
Abbreviation OdometryObserverBody :=
  (Observers.OdometryObserverBody
     rmse_0_0017 (NavSatFix := NavSatFix) OdometryDataToMsg VrtkDataToMsg
     ImuDataToMsg TfDataToMsg GpsTimeToMsgTime).

(** The ODOMETRY observer block by block. *)
Lemma OdometryObserver_run (data : Msgs) (b : Bus) :
  let odometry_msg := OdometryDataToMsg (odometry data) in
  let enu0_msg := OdometryDataToMsg (odometry_enu0 data) in
  let orientation_msg :=
    mkGnssInsOrientationStamped
      (odom_header enu0_msg) (odom_orientation enu0_msg)
      rmse_0_0017 rmse_0_0017 rmse_0_0017 in
  let ypr :=
    mkVector3Stamped
      (mkHeader (GpsTimeToMsgTime (od_stamp (odometry data))) "FP_POI")
      (mkVector3 (Tf.x (eul data)) (Tf.y (eul data)) (Tf.z (eul data))) in
  OdometryObserverBody data b =
  (Normal tt,
   mkBus (bus_subscription_count b)
         (bus_published b ++
            guarded b odometry_pub_
              [(odometry_pub_, OdometryMsg odometry_msg)] ++
            guarded b odometry_enu0_pub_
              [(odometry_enu0_pub_, OdometryMsg enu0_msg);
               (orientation_pub_,
                GnssInsOrientationMsg orientation_msg)] ++
            guarded b vrtk_pub_
              [(vrtk_pub_,
                VrtkMsg (VrtkDataToMsg (vrtk data)))] ++
            guarded b eul_pub_
              [(eul_pub_,
                YprMsg ypr)] ++
            guarded b poiimu_pub_
              [(poiimu_pub_,
                ImuMsg (ImuDataToMsg (imu data)))])).
Proof.
  cbv zeta. destruct b as [cnt pubs].
  unfold Observers.OdometryObserverBody, guarded, when, bind,
    bus_get_subscription_count, bus_publish, gets, modify, ret.
  cbn [bus_subscription_count bus_published].
  repeat (match goal with
          | |- context [(0 <? cnt ?p)%nat] => destruct (0 <? cnt p)%nat
          end; cbn [bus_subscription_count bus_published]).
  all: destruct (0 <? fusion_status (vrtk data))%Z;
    cbn [bus_subscription_count bus_published].
  all: rewrite <- ?app_assoc; cbn [app]; rewrite ?app_nil_r; reflexivity.
Qed.

(** The ODOMETRY observer returns normally, leaves the subscription
    counts alone, and publishes block by block in the order of the source:
    for each of the odometry, odometry_enu, vrtk, ypr and poiimu publishers
    that has a subscriber, one message on it, and right after the
    odometry_enu message one on the orientation publisher.  With no
    subscriber on the five, it publishes nothing. *)
Theorem OdometryObserver_publishes_by_subscription (data : Msgs) (b : Bus) :
  let b' := snd (OdometryObserverBody data b) in
  fst (OdometryObserverBody data b) = Normal tt /\
  bus_subscription_count b' = bus_subscription_count b /\
  exists new,
    bus_published b' = bus_published b ++ new /\
    map fst new = flat_map block_of (subscribed b odometry_gates).
Proof.
  intros b'. subst b'. rewrite OdometryObserver_run.
  cbn [fst snd bus_subscription_count bus_published].
  split; [reflexivity|]. split; [reflexivity|].
  eexists; split; [reflexivity|].
  unfold guarded, subscribed, odometry_gates. cbn [filter].
  destruct (0 <? bus_subscription_count b odometry_pub_)%nat;
    destruct (0 <? bus_subscription_count b odometry_enu0_pub_)%nat;
    destruct (0 <? bus_subscription_count b vrtk_pub_)%nat;
    destruct (0 <? bus_subscription_count b eul_pub_)%nat;
    destruct (0 <? bus_subscription_count b poiimu_pub_)%nat;
    reflexivity.
Qed.

(** The orientation message is published exactly when the odometry_enu
    publisher has a subscriber: its header and orientation are those of the
    odometry_enu message and its three rmse members hold 0.0017.  The
    subscribers of the orientation publisher itself are never looked at. *)
Theorem OdometryObserver_orientation_follows_enu0 (data : Msgs) (b : Bus) :
  let b' := snd (OdometryObserverBody data b) in
  let enu0_msg := OdometryDataToMsg (odometry_enu0 data) in
  (exists new,
      bus_published b' = bus_published b ++ new /\
      forall m,
        In (orientation_pub_, m) new <->
        0 < bus_subscription_count b odometry_enu0_pub_ /\
        m = GnssInsOrientationMsg
              (mkGnssInsOrientationStamped
                 (odom_header enu0_msg) (odom_orientation enu0_msg)
                 rmse_0_0017 rmse_0_0017 rmse_0_0017)) /\
  (forall n,
      bus_published
        (snd (OdometryObserverBody
                data
                (mkBus (fun p => match p with
                                 | orientation_pub_ => n
                                 | _ => bus_subscription_count b p
                                 end)
                       (bus_published b)))) =
      bus_published b').
Proof.
  intros b' enu0_msg. subst b' enu0_msg. split.
  - rewrite OdometryObserver_run.
    cbn [snd bus_published].
    eexists; split; [reflexivity|].
    intros m. unfold guarded.
    destruct (Nat.ltb_spec 0 (bus_subscription_count b odometry_pub_));
      destruct (Nat.ltb_spec 0 (bus_subscription_count b odometry_enu0_pub_));
      destruct (Nat.ltb_spec 0 (bus_subscription_count b vrtk_pub_));
      destruct (Nat.ltb_spec 0 (bus_subscription_count b eul_pub_));
      destruct (Nat.ltb_spec 0 (bus_subscription_count b poiimu_pub_));
      cbn [app In];
      (split;
       [intros Hin;
        repeat match goal with
               | H : _ \/ _ |- _ => destruct H
               | H : False |- _ => destruct H
               end;
        try discriminate; (split; [assumption|congruence])
       |intros [Hlt ->]; try lia; auto 10]).
  - intros n. rewrite !OdometryObserver_run. reflexivity.
Qed.

(** The three transforms of the record have no effect: the observer does
    the same, publication for publication, whatever they hold (their
    broadcasts are commented out in the source). *)
Theorem OdometryObserver_ignores_transforms
        (data : Msgs) (poi enu enu0 : Tf.TfData double) (b : Bus) :
  OdometryObserverBody (with_tfs data poi enu enu0) b =
  OdometryObserverBody data b.
Proof.
  rewrite !OdometryObserver_run. reflexivity.
Qed.

End Facts.

End ObserversFacts.

(** ** Instances of the properties above *)

Module Instances.

Import Decimal.

(** The exception of the failing observer O2 is traced to an observer. *)
Lemma ConvertTokens_throw_origin_witness :
  let st := start [logging "O1"; failing "O2"] in
  length tf_frame = 12 /\
  ((exists j, 5 <= j <= 11 /\
              StringToDouble (Tf.token tf_frame j) = Throw (std_exception "O2")) \/
   (exists ob w,
       In ob (Tf.obs_ (Tf.self st)) /\
       fst (ob (Tf.msg_ (Tf.self (snd (ConvertTokens tf_frame st)))) w) =
       Some (std_exception "O2"))).
Proof.
  apply (@TfMore.ConvertTokens_throw_origin
           Q StringToDouble World TfData_ctor tf_frame
           (start [logging "O1"; failing "O2"]) (std_exception "O2")).
  reflexivity.
Defined.

(** A frame whose rotation does not parse, after the frame of the first
    scenario: the record has the new names and translation and the old
    rotation. *)
Lemma ConvertTokens_parse_failure_mixes_frames_witness :
  let st' := snd (ConvertTokens Setup.bad_rotation_frame Setup.after_tf_frame) in
  (forall tx ty tz,
      StringToDouble "4.0" = Normal tx ->
      StringToDouble "5.0" = Normal ty ->
      StringToDouble "6.0" = Normal tz ->
      Tf.msg_ (Tf.self st') =
      Tf.mkTfData "FP_VRTK" "FP_CAM" (Tf.mkVector3d tx ty tz)
                  (Tf.mkQuaterniond 1 0 0 0)%Q) /\
  (forall j e',
      5 <= j <= 7 ->
      StringToDouble (Tf.token Setup.bad_rotation_frame j) = Throw e' ->
      Tf.msg_ (Tf.self st') =
      Tf.mkTfData "FP_VRTK" "FP_CAM" (Tf.mkVector3d 1 2 3)%Q
                  (Tf.mkQuaterniond 1 0 0 0)%Q).
Proof.
  apply (@TfMore.ConvertTokens_parse_failure_mixes_frames
           Q StringToDouble World TfData_ctor
           Setup.bad_rotation_frame Setup.after_tf_frame
           9 (std_exception "stod")).
  - reflexivity.
  - lia.
  - reflexivity.
Defined.

(** A configured delay of 2.5 s is slept as 2 s. *)
Lemma reconnect_delay_is_whole_seconds_witness :
  exists ns,
    Node.reconnect_delay_ns (5 # 2) = Some ns /\
    ns = 2000000000%Z /\
    (inject_Z ns <= Node.seconds_to_ns (5 # 2))%Q /\
    (Node.seconds_to_ns (5 # 2) < inject_Z ns + 1000000000)%Q /\
    ((inject_Z ns == Node.seconds_to_ns (5 # 2))%Q <->
     (5 # 2 == inject_Z 2)%Q).
Proof.
  apply (@NodeMore.reconnect_delay_is_whole_seconds (5 # 2)%Q).
  - unfold Qle; cbn; lia.
  - cbn; lia.
Defined.

(** A configured delay of 9223372037 s is slept as a negative duration. *)
Lemma reconnect_delay_wraps_negative_witness :
  exists ns,
    Node.reconnect_delay_ns (inject_Z 9223372037) = Some ns /\
    ns = (9223372037 * 1000000000 - 2 ^ 64)%Z /\
    (ns < 0)%Z.
Proof.
  apply (@NodeMore.reconnect_delay_wraps_negative (inject_Z 9223372037)).
  - unfold Qle; cbn; lia.
  - cbn; lia.
Defined.

(** The counting driver leaves the loop before its fifth turn. *)
Lemma Run_loop_stops_when_not_ok_witness :
  exists tr,
    Node.Run_loop Scenario.rclcpp_ok Scenario.RunOnce Scenario.spin_some
                  Scenario.sleep_for Scenario.Connect Scenario.rate_sleep
                  10 (3 # 2) 1000000000 (0 : Scenario.Driver) [] =
    Node.Exited 4 tr /\
    Trace.count (@Node.is_RunOnce) tr = 4.
Proof.
  apply (@NodeMore.Run_loop_stops_when_not_ok
           Scenario.Driver Scenario.rclcpp_ok Scenario.RunOnce
           Scenario.spin_some Scenario.sleep_for Scenario.Connect
           Scenario.rate_sleep (3 # 2) 1000000000%Z 4 10 0).
  - lia.
  - intros k Hk.
    destruct k as [|[|[|[|k]]]];
      [reflexivity|reflexivity|reflexivity|reflexivity|lia].
  - reflexivity.
Defined.

(** The IMU frame goes through the converter and the TF lambda to the
    IMU yaw-pitch-roll publisher, with yaw 0. *)
Lemma TF_frame_reaches_imu_ypr_witness :
  let st' := snd (Tf.ConvertTokens StringToDouble TfData_ctor
                                   Setup.imuh_frame Setup.tf_state) in
  fst (Tf.ConvertTokens StringToDouble TfData_ctor
                        Setup.imuh_frame Setup.tf_state) = Normal tt /\
  exists new,
    Node.published (Tf.world st') = [] ++ new /\
    length new <= 1 /\
    (new <> [] <-> "POI" = "POI" /\ "IMUH" = "IMUH") /\
    (forall p m,
        In (p, m) new ->
        p = Node.eul_imu_pub_ /\
        exists v, m = Node.Vector3StampedMsg Scenario.NavSatFix v /\
                  Node.vector v = Node.mkVector3 0%Q 0%Q 0%Q).
Proof.
  apply (@NodeMore.TF_frame_reaches_imu_ypr
           Q 0%Q Scenario.Time Scenario.Transform Scenario.NavSatFix
           Scenario.TfDataToMsg Scenario.QuatToEul StringToDouble TfData_ctor
           Setup.imuh_frame Setup.tf_state 0%Q 0%Q 0%Q 1%Q 0%Q 0%Q 0%Q);
    try reflexivity.
  intros d. split; reflexivity.
Defined.

(** Formats without a branch, among them a lower-case "tf", change
    nothing but the BestGnssPos observers. *)
Lemma RegisterObservers_ignores_other_formats_witness :
  Setup.RegisterObservers ["NMEA"; "tf"] Setup.driver0 =
  Some (Registry.mkDriver Setup.tf_only [tt]).
Proof.
  apply (@RegistryFacts.RegisterObservers_ignores_other_formats
           Q Scenario.Ros unit unit unit unit tt tt tt tt tt Scenario.TfLambda
           ["NMEA"; "tf"] Setup.driver0).
  intros f [<-|[<-|[]]]; reflexivity.
Defined.

(** With "TF" configured twice the TF lambda is registered twice. *)
Lemma RegisterObservers_adds_TF_lambda_per_occurrence_witness :
  exists d',
    Setup.RegisterObservers ["TF"; "LLH"; "TF"] Setup.driver0 = Some d' /\
    Registry.a_converters_ d' "TF" =
    Some (Some (Registry.TfConverter unit unit unit
                  (Tf.mkTfConverter
                     TfData_ctor [Scenario.TfLambda; Scenario.TfLambda]))) /\
    Registry.bestgnsspos_obs_ d' = [tt].
Proof.
  eexists. split; [reflexivity|].
  apply (@RegistryFacts.RegisterObservers_adds_TF_lambda_per_occurrence
           Q Scenario.Ros unit unit unit unit tt tt tt tt tt Scenario.TfLambda
           ["TF"; "LLH"; "TF"] Setup.driver0 _
           (Tf.mkTfConverter TfData_ctor []) eq_refl eq_refl).
Defined.

End Instances.

(** ** The run loop with calls that may throw *)

Module LoopFacts.

Import Loop.

Section Facts.

Variable Driver : Type.
Variable Rate : Type.
Variable RateParam : Type.
Variable Rate_ctor : RateParam -> Rate.
Variable c : Calls Driver Rate.

(** The configured rate and delay, and the delay computed from it. *)
Variable rate_param : RateParam.
Variable seconds : Q.
Variable delay : Z.

(** The [rclcpp::Rate] that [Run] builds from the configured rate. *)
Abbreviation rate := (Rate_ctor rate_param).

Abbreviation body := (Run_body c rate seconds delay).
Abbreviation logged_body := (Run_body (instrument c) rate seconds delay).
Abbreviation loop := (fun fuel => Run_loop c fuel rate seconds delay).
Abbreviation logged_loop :=
  (fun fuel => Run_loop (instrument c) fuel rate seconds delay).
Abbreviation args_ok := (arguments_ok rate seconds delay).

Lemma count_app (f : event Rate -> bool) (a b : list (event Rate)) :
  count f (a ++ b) = count f a + count f b.
Proof. unfold count. now rewrite filter_app, length_app. Qed.

Lemma args_ok_app (a b : list (event Rate)) :
  args_ok a -> args_ok b -> args_ok (a ++ b).
Proof.
  intros Ha Hb what how Hin. apply in_app_or in Hin.
  destruct Hin as [Hin|Hin]; [exact (Ha _ _ Hin)|exact (Hb _ _ Hin)].
Qed.

(** Runs one call of the body in the goal, with its two endings. *)
Ltac run_call m d :=
  let r := fresh "r" in
  let d' := fresh "d" in
  let E := fresh "E" in
  destruct (m d) as [r d'] eqn:E; destruct r as [?|?];
  cbn [fst snd].

(** Unfolds the body over logged calls down to the calls of [c]. *)
Ltac open_body :=
  unfold Run_body, bind, instrument;
  cbn [RunOnce spin_some printf_reconnecting sleep_for Connect rate_sleep];
  unfold logged; cbn [fst snd].



(** A cycle started on a log of whole cycles leaves a log of whole cycles
    with one more [RunOnce] when it completes; when a call throws, that
    call is the last of the log and the first that threw. *)
Lemma logged_body_inv (d : Driver) (log : list (event Rate)) :
  balanced log -> args_ok log ->
  match logged_body (d, log) with
  | (Normal _, (d', log')) =>
      balanced log' /\ args_ok log' /\
      count (@called_RunOnce Rate) log' = S (count (@called_RunOnce Rate) log)
  | (Throw e, (d', log')) =>
      (exists log0 what,
          log' = log0 ++ [(what, Raised e)] /\ count (@raised Rate) log0 = 0) /\
      args_ok log' /\ some_call_throws c e
  end.
Proof.
  intros (B0 & B1 & B2 & B3 & B4 & B5) Ha.
  assert (Hone : forall what how,
             match what with
             | CallPrintf s => s = seconds
             | CallSleepFor ns => ns = delay
             | CallRateSleep r => r = rate
             | _ => True
             end -> args_ok [(what, how)]).
  { intros what how H w h [Hin|[]]. now inversion Hin; subst. }
  unfold some_call_throws.
  open_body.
  destruct (RunOnce c d) as [[ok|e] d1] eqn:E1; cbn [fst snd].
  2: { split; [exists log, CallRunOnce; now split|].
       split; [apply args_ok_app; [assumption|now apply Hone]|].
       left. exists d. now rewrite E1. }
  destruct (spin_some c d1) as [[u|e] d2] eqn:E2; cbn [fst snd].
  2: { split; [eexists _, CallSpinSome; split; [reflexivity|]|].
       { rewrite count_app. cbn. lia. }
       split; [repeat apply args_ok_app; try assumption; now apply Hone|].
       right; left. exists d1. now rewrite E2. }
  destruct ok; cbn [negb fst snd].
  - destruct (rate_sleep c rate d2) as [[u'|e] d3] eqn:E3; cbn [fst snd].
    + split; [|split].
      * unfold balanced. rewrite !count_app. cbn. lia.
      * repeat apply args_ok_app; try assumption; now apply Hone.
      * rewrite !count_app. cbn. lia.
    + split; [eexists _, (CallRateSleep rate); split; [reflexivity|]|].
      { rewrite !count_app. cbn. lia. }
      split; [repeat apply args_ok_app; try assumption; now apply Hone|].
      do 5 right. exists rate, d2. now rewrite E3.
  - destruct (printf_reconnecting c seconds d2) as [[u1|e] d3] eqn:E3;
      cbn [fst snd].
    2: { split; [eexists _, (CallPrintf seconds); split; [reflexivity|]|].
         { rewrite !count_app. cbn. lia. }
         split; [repeat apply args_ok_app; try assumption; now apply Hone|].
         do 2 right; left. exists seconds, d2. now rewrite E3. }
    destruct (sleep_for c delay d3) as [[u2|e] d4] eqn:E4; cbn [fst snd].
    2: { split; [eexists _, (CallSleepFor delay); split; [reflexivity|]|].
         { rewrite !count_app. cbn. lia. }
         split; [repeat apply args_ok_app; try assumption; now apply Hone|].
         do 3 right; left. exists delay, d3. now rewrite E4. }
    destruct (Connect c d4) as [[u3|e] d5] eqn:E5; cbn [fst snd].
    + split; [|split].
      * unfold balanced. rewrite !count_app. cbn. lia.
      * repeat apply args_ok_app; try assumption; now apply Hone.
      * rewrite !count_app. cbn. lia.
    + split; [eexists _, CallConnect; split; [reflexivity|]|].
      { rewrite !count_app. cbn. lia. }
      split; [repeat apply args_ok_app; try assumption; now apply Hone|].
      do 4 right; left. exists d4. now rewrite E5.
Qed.

(** The log of the loop, whatever its length and its ending. *)
Lemma logged_loop_inv (fuel : nat) :
  forall d log,
    balanced log -> args_ok log ->
    match logged_loop fuel (d, log) with
    | Exited dl =>
        balanced (snd dl) /\ args_ok (snd dl) /\ rclcpp_ok c (fst dl) = false
    | Running dl =>
        balanced (snd dl) /\ args_ok (snd dl) /\
        count (@called_RunOnce Rate) (snd dl) =
        count (@called_RunOnce Rate) log + fuel
    | Threw e dl =>
        (exists log0 what,
            snd dl = log0 ++ [(what, Raised e)] /\
            count (@raised Rate) log0 = 0) /\
        args_ok (snd dl) /\ some_call_throws c e
    end.
Proof.
  induction fuel as [|fuel IH]; intros d log Hb Ha.
  - cbn [Run_loop snd fst]. split; [exact Hb|split; [exact Ha|lia]].
  - cbn [Run_loop]. cbn [instrument rclcpp_ok fst].
    destruct (rclcpp_ok c d) eqn:Hok;
      [|cbn [snd fst]; split; [exact Hb|split; [exact Ha|exact Hok]]].
    pose proof (logged_body_inv d Hb Ha) as Hbody.
    destruct (logged_body (d, log)) as [[u|e] [d' log']].
    + destruct Hbody as (Hb' & Ha' & Hn).
      specialize (IH d' log' Hb' Ha').
      destruct (logged_loop fuel (d', log')) as [dl|dl|e dl];
        try assumption.
      destruct IH as (H1 & H2 & H3).
      split; [exact H1|split; [exact H2|lia]].
    + exact Hbody.
Qed.

Lemma balanced_nil : balanced (@nil (event Rate)).
Proof. unfold balanced, count. cbn. now repeat split. Qed.

Lemma args_ok_nil : args_ok [].
Proof. intros what how []. Qed.



(** However many turns the loop takes, the log of its calls holds only
    calls with the arguments [Run] holds for them (the configured rate, the
    configured seconds, the delay computed before the loop).  When the loop
    does not end by an exception, the log has one fixed-rate sleep per cycle
    that returned true, one message, one delay and one [Connect] per cycle
    that returned false, and one [spin_some] per cycle.  When it ends by an
    exception, the call that threw is the last of the log and no earlier
    call threw. *)
Theorem Run_loop_log_balanced (fuel : nat) (d : Driver) :
  let r := logged_loop fuel (d, []) in
  let log := snd (state_of r) in
  args_ok log /\
  match r with
  | Threw e _ =>
      exists log0 what,
        log = log0 ++ [(what, Raised e)] /\ count (@raised Rate) log0 = 0
  | _ => balanced log
  end.
Proof.
  cbv zeta.
  pose proof (logged_loop_inv fuel d balanced_nil args_ok_nil) as Hinv.
  destruct (logged_loop fuel (d, [])) as [dl|dl|e dl]; cbn [state_of];
    split; apply Hinv.
Qed.

End Facts.

End LoopFacts.

(** On calls that return, the loop is the one of [Node.Run_loop]. *)
Lemma Run_loop_of_total {Driver : Type}
      (ok : Driver -> bool) (run_once : Driver -> bool * Driver)
      (spin : Driver -> Driver) (sleep : Z -> Driver -> Driver)
      (connect rsleep : Driver -> Driver) (seconds : Q) (delay : Z)
      (fuel : nat) :
  forall d tr,
    Loop.Run_loop (Loop.of_total ok run_once spin sleep connect rsleep)
                  fuel tt seconds delay d =
    Loop.of_traced
      (Node.Run_loop ok run_once spin sleep connect rsleep
                     fuel seconds delay d tr).
Proof.
  induction fuel as [|fuel IH]; intros d tr; [reflexivity|].
  cbn [Loop.Run_loop Node.Run_loop]. unfold Loop.of_total at 1.
  cbn [Loop.rclcpp_ok].
  destruct (ok d); [|reflexivity].
  unfold Loop.Run_body, Node.Run_body, bind. unfold Loop.of_total at 1 2 3 4 5 6.
  cbn [Loop.RunOnce Loop.spin_some Loop.printf_reconnecting Loop.sleep_for
       Loop.Connect Loop.rate_sleep].
  destruct (run_once d) as [[|] d1]; cbn [negb]; apply IH.
Qed.

(** ** The delay for every [double] *)

Module FpFacts.

Import Fp.

(** The cast of the configured delay is undefined exactly for a NaN, for
    the infinities, and for the finite delays of -1 s or less and of 2^64 s
    or more; a finite delay between -1 and 0 is slept as 0. *)
Theorem reconnect_delay_undefined_exactly (d : double) :
  (reconnect_delay_ns d = None <->
   d = NaN \/
   (exists negative, d = Infinity negative) \/
   (exists q, d = Finite q /\
              ((q <= - (1))%Q \/ (inject_Z (2 ^ 64) <= q)%Q))) /\
  (forall q, d = Finite q -> (- (1) < q)%Q -> (q < 0)%Q ->
             reconnect_delay_ns d = Some 0%Z).
Proof.
  destruct d as [q|negative|].
  - change (reconnect_delay_ns (Finite q)) with (Node.reconnect_delay_ns q).
    destruct (NodeMore.reconnect_delay_undefined_iff q) as [Hiff Hzero].
    split.
    + rewrite Hiff. split.
      * intros H. right; right. exists q. now split.
      * intros [H|[[n H]|[q' [H Hq]]]]; try discriminate H.
        now injection H as <-.
    + intros q' H. injection H as <-. exact Hzero.
  - split; [|discriminate].
    split; [intros _; right; left; now exists negative|reflexivity].
  - split; [|discriminate].
    split; [intros _; now left|reflexivity].
Qed.

End FpFacts.

(** ** Runs of the loop *)

Module LoopCases.

Import Loop.




End LoopCases.
